(** * pycli-test: the example CLI program (src/main.py)

    A shallow embedding of the demo program built on the pycli shell
    engine, and the properties its specification states about the
    handlers and the two rendering callbacks.

    Conventions of the embedding.
    - A Python [str] is a Rocq [string], one [ascii] per code point; the
      embedding covers text whose code points lie below 256.
    - A Python [int] is a [Z].
    - A Python [dict] with string keys that is only looked up, inserted
      into and popped from (the environment store, a command's options) is
      a [gmap string pyobj]; a dict that the program iterates (the
      ['user-items'] entry) is an association list in insertion order.
    - A handler is a function of the world: it returns a value or raises,
      and leaves a world behind in both cases. *)

From Stdlib Require Import ZArith Ascii String List Bool Lia.
From stdpp Require Import base option list strings pretty gmap.

Set Warnings "-register-all".

Open Scope Z_scope.
Open Scope string_scope.

(** ** Python values *)

Inductive pyobj : Type :=
  | PyNone
  | PyBool (b : bool)
  | PyInt (z : Z)
  | PyStr (s : string)
  | PyTuple (items : list pyobj)
  | PyDict (entries : list (pyobj * pyobj)).

(** ** Exceptions

    A class is given with the chain of its base classes, which is all
    that [issubclass] inspects. *)

Inductive exc_class : Type :=
  | Class (name : string) (base : option exc_class).

Inductive exn : Type :=
  | Exn (cls : exc_class) (message : string) (cause : option exn).

Definition exn_class (e : exn) : exc_class :=
  match e with Exn c _ _ => c end.

(** [str(exception)] *)
Definition exn_str (e : exn) : string :=
  match e with Exn _ m _ => m end.

(** [exception.__cause__] *)
Definition exn_cause (e : exn) : option exn :=
  match e with Exn _ _ c => c end.

Definition class_name (c : exc_class) : string :=
  match c with Class n _ => n end.

Fixpoint issubclass (c : exc_class) (target : exc_class) : bool :=
  match c with
  | Class n b =>
      if String.eqb n (class_name target) then true
      else match b with
           | Some p => issubclass p target
           | None => false
           end
  end.

Definition Exception : exc_class := Class "Exception" None.
Definition LookupError : exc_class := Class "LookupError" (Some Exception).
Definition IndexError : exc_class := Class "IndexError" (Some LookupError).
Definition KeyError : exc_class := Class "KeyError" (Some LookupError).
Definition ValueError : exc_class := Class "ValueError" (Some Exception).
Definition TypeError : exc_class := Class "TypeError" (Some Exception).
Definition OSError : exc_class := Class "OSError" (Some Exception).
Definition FileNotFoundError : exc_class :=
  Class "FileNotFoundError" (Some OSError).

(** Modelled from the spec: [pycli.errors.CLIError], the root of the
    recognized error taxonomy of section 7; the class itself is declared
    in the pycli package, only its import is in the sources. *)
Definition CLIError : exc_class := Class "CLIError" (Some Exception).

Inductive result (A : Type) : Type :=
  | Ok (a : A)
  | Raise (e : exn).
Arguments Ok {A} a.
Arguments Raise {A} e.

(** ** Text *)

Definition TAB : string := String (ascii_of_nat 9) "".
Definition NL : string := String (ascii_of_nat 10) "".
Definition SQUOTE : ascii := ascii_of_nat 39.
Definition DQUOTE : ascii := ascii_of_nat 34.
Definition BACKSLASH : ascii := ascii_of_nat 92.

Fixpoint string_map (f : ascii -> ascii) (s : string) : string :=
  match s with
  | EmptyString => EmptyString
  | String a r => String (f a) (string_map f r)
  end.

(** [str.lower] on one code point below 256: the letters A-Z and the
    Latin-1 capitals (0xC0-0xDE without the multiplication sign 0xD7)
    move up by 32, everything else stays. *)
Definition lower_char (a : ascii) : ascii :=
  let n := N_of_ascii a in
  if ((65 <=? n) && (n <=? 90))%N
     || ((192 <=? n) && (n <=? 222) && negb (n =? 215))%N
  then ascii_of_N (n + 32)
  else a.

Definition lower (s : string) : string := string_map lower_char s.

Fixpoint join (sep : string) (l : list string) : string :=
  match l with
  | [] => ""
  | [x] => x
  | x :: r => x +:+ sep +:+ join sep r
  end.

Fixpoint contains_char (c : ascii) (s : string) : bool :=
  match s with
  | EmptyString => false
  | String a r => if Ascii.eqb a c then true else contains_char c r
  end.

Definition hex_digit (n : N) : ascii :=
  if (n <? 10)%N then ascii_of_N (48 + n) else ascii_of_N (87 + n).

(** A code point that [repr] writes as an escape: the control characters,
    DEL, 0x80-0xA0 and the soft hyphen 0xAD. *)
Definition nonprintable (n : N) : bool :=
  ((n <? 32) || (n =? 127) || ((128 <=? n) && (n <=? 160)) || (n =? 173))%N.

Definition repr_char (quote : ascii) (a : ascii) : string :=
  let n := N_of_ascii a in
  if Ascii.eqb a BACKSLASH then "\\"
  else if Ascii.eqb a quote then String BACKSLASH (String a "")
  else if (n =? 9)%N then "\t"
  else if (n =? 10)%N then "\n"
  else if (n =? 13)%N then "\r"
  else if nonprintable n
       then "\x" +:+ String (hex_digit (n / 16)) (String (hex_digit (n mod 16)) "")
  else String a "".

Fixpoint repr_chars (quote : ascii) (s : string) : string :=
  match s with
  | EmptyString => EmptyString
  | String a r => repr_char quote a +:+ repr_chars quote r
  end.

(** [repr] of a str: double quotes when the text has a single quote and
    no double quote, single quotes otherwise. *)
Definition repr_str (s : string) : string :=
  let quote : ascii :=
    if contains_char SQUOTE s && negb (contains_char DQUOTE s)
    then DQUOTE else SQUOTE in
  String quote (repr_chars quote s +:+ String quote "").

(** [repr(x)] and [str(x)]; they differ on a str only. *)
Fixpoint repr (v : pyobj) : string :=
  match v with
  | PyNone => "None"
  | PyBool true => "True"
  | PyBool false => "False"
  | PyInt z => pretty z
  | PyStr s => repr_str s
  | PyTuple items =>
      match items with
      | [x] => "(" +:+ repr x +:+ ",)"
      | _ => "(" +:+ join ", " (List.map repr items) +:+ ")"
      end
  | PyDict entries =>
      "{" +:+ join ", "
                (List.map (fun kv => repr (fst kv) +:+ ": " +:+ repr (snd kv))
                          entries)
          +:+ "}"
  end.

Definition str (v : pyobj) : string :=
  match v with
  | PyStr s => s
  | _ => repr v
  end.

(** Truth value of an object, as [if x:] tests it. *)
Definition truthy (v : pyobj) : bool :=
  match v with
  | PyNone => false
  | PyBool b => b
  | PyInt z => negb (Z.eqb z 0)
  | PyStr s => negb (String.eqb s "")
  | PyTuple items => negb (Nat.eqb (List.length items) 0)
  | PyDict entries => negb (Nat.eqb (List.length entries) 0)
  end.

(** ** parse_bool *)

Definition falsy_words : list string := ["no"; "false"; "negative"; "deny"].
Definition truthy_words : list string := ["yes"; "true"; "positive"; "allow"].

Definition str_in (s : string) (l : list string) : bool :=
  existsb (String.eqb s) l.

Definition parse_bool_message : string :=
  "Parsing bool must be falsy=" +:+ repr (PyTuple (List.map PyStr falsy_words))
  +:+ " or truthy=" +:+ repr (PyTuple (List.map PyStr truthy_words)).

Definition parse_bool (entry : string) : result bool :=
  let entry := lower entry in
  if str_in entry falsy_words then Ok false
  else if str_in entry truthy_words then Ok true
  else Raise (Exn ValueError parse_bool_message None).

(** ** Iteration and unpacking *)

Definition type_name (v : pyobj) : string :=
  match v with
  | PyNone => "NoneType"
  | PyBool _ => "bool"
  | PyInt _ => "int"
  | PyStr _ => "str"
  | PyTuple _ => "tuple"
  | PyDict _ => "dict"
  end.

Fixpoint chars (s : string) : list pyobj :=
  match s with
  | EmptyString => []
  | String a r => PyStr (String a "") :: chars r
  end.

(** The elements [iter(x)] yields, when [x] is iterable: the characters
    of a str, the items of a tuple, the keys of a dict. *)
Definition elements_of (v : pyobj) : option (list pyobj) :=
  match v with
  | PyStr s => Some (chars s)
  | PyTuple items => Some items
  | PyDict entries => Some (List.map fst entries)
  | _ => None
  end.

(** [for ... in x]: the sequence the loop runs over. *)
Definition iterate (v : pyobj) : result (list pyobj) :=
  match elements_of v with
  | Some l => Ok l
  | None =>
      Raise (Exn TypeError
               ("'" +:+ type_name v +:+ "' object is not iterable") None)
  end.

(** [a, b = x]: the target list of two names (messages as CPython 3.10
    to 3.13 word them). *)
Definition unpack2 (v : pyobj) : result (pyobj * pyobj) :=
  match elements_of v with
  | None =>
      Raise (Exn TypeError
               ("cannot unpack non-iterable " +:+ type_name v +:+ " object")
               None)
  | Some [a; b] => Ok (a, b)
  | Some (_ :: _ :: _ :: _) =>
      Raise (Exn ValueError "too many values to unpack (expected 2)" None)
  | Some l =>
      Raise (Exn ValueError
               ("not enough values to unpack (expected 2, got "
                  +:+ pretty (List.length l) +:+ ")") None)
  end.

(** An object that decomposes into exactly two elements. *)
Definition two_elements (v : pyobj) : bool :=
  match elements_of v with
  | Some l => Nat.eqb (List.length l) 2
  | None => false
  end.

(** ** The shell and its commands

    The [Command] and [CLI] classes belong to the pycli package; the
    records below hold the attributes the program reads and writes. *)

(** Modelled from the spec: [pycli.Command] (section 3, Command): the
    aliases [matches], the [options] map the renderer consults, and the
    attributes of the handler the help text uses. *)
Record Command : Type := mkCommand {
  function : string;          (* the name of the registered handler *)
  function_doc : option string;  (* function.__doc__ *)
  matches : list string;
  options : gmap string pyobj;
  detail : string
}.

Definition with_options (c : Command) (o : gmap string pyobj) : Command :=
  mkCommand (function c) (function_doc c) (matches c) o (detail c).

(** What the program writes: a line on standard output, or the trace of
    the exception being handled ([traceback.print_exc]). *)
Inductive event : Type :=
  | Printed (line : string)
  | PrintExc.

(** Modelled from the spec: [pycli.CLI] (sections 2 and 3): the session
    title, the environment store, the registered commands in listing
    order, and the command being invoked, if any. [output] collects what
    the process has written. *)
Record world : Type := mkWorld {
  title : string;
  env_vars : gmap string pyobj;
  commands : list Command;
  invoking : option Command;
  output : list event
}.

Definition DEFAULT_TABWIDTH : Z := 4.

(** The environment store the program is started with. *)
Definition initial_env_vars : gmap string pyobj :=
  <["username" := PyNone]>
    (<["age" := PyNone]>
       (<["user-items" := PyDict []]>
          (<["tabwidth" := PyInt DEFAULT_TABWIDTH]> ∅))).

Definition set_title (t : string) (w : world) : world :=
  mkWorld t (env_vars w) (commands w) (invoking w) (output w).

Definition set_env_vars (e : gmap string pyobj) (w : world) : world :=
  mkWorld (title w) e (commands w) (invoking w) (output w).

Definition set_commands (cs : list Command) (w : world) : world :=
  mkWorld (title w) (env_vars w) cs (invoking w) (output w).

Definition set_output (o : list event) (w : world) : world :=
  mkWorld (title w) (env_vars w) (commands w) (invoking w) o.

(** ** The handler monad: a result and the world left behind *)

Definition M (A : Type) : Type := world -> result A * world.

Definition ret {A} (a : A) : M A := fun w => (Ok a, w).

Definition raise {A} (e : exn) : M A := fun w => (Raise e, w).

Definition bind {A B} (m : M A) (k : A -> M B) : M B :=
  fun w =>
    match m w with
    | (Ok a, w') => k a w'
    | (Raise e, w') => (Raise e, w')
    end.

Definition lift {A} (r : result A) : M A := fun w => (r, w).

Declare Scope handler_scope.
Delimit Scope handler_scope with handler.
Notation "'let*' x ':=' m 'in' k" := (bind m (fun x => k))
  (at level 10, x name, m at level 100, k at level 200) : handler_scope.
Notation "'run' m 'then' k" := (bind m (fun _ => k))
  (at level 10, m at level 100, k at level 200) : handler_scope.
Open Scope handler_scope.

Definition print (line : string) : M unit :=
  fun w => (Ok tt, set_output (output w ++ [Printed line]) w).

Definition print_exc : M unit :=
  fun w => (Ok tt, set_output (output w ++ [PrintExc]) w).

(** [cli.env_vars[key] = v] *)
Definition env_set (key : string) (v : pyobj) : M unit :=
  fun w => (Ok tt, set_env_vars (<[key := v]> (env_vars w)) w).

(** [cli.env_vars.get(key)], [None] standing for [key not in cli.env_vars] *)
Definition env_get (key : string) : M (option pyobj) :=
  fun w => (Ok (env_vars w !! key), w).

(** [command.matches[0]] *)
Definition first_match (c : Command) : result string :=
  match matches c with
  | m :: _ => Ok m
  | [] => Raise (Exn IndexError "list index out of range" None)
  end.

(** ** Commands on the environment store *)

(** [set name] *)
Definition setname (name : string) : M pyobj :=
  run env_set "username" (PyStr name) then
  run (fun w =>
         (Ok tt,
          if truthy (PyStr name) then set_title (name +:+ "@CLI App") w
          else set_title "CLI App" w)) then
  ret (PyStr name).

(** [set age] *)
Definition setage (age : Z) : M pyobj :=
  run env_set "age" (PyInt age) then
  ret (PyInt age).

(** [set item]; [value] is an [Optional[str]] *)
Definition setitem (key : string) (value : option string) : M pyobj :=
  let v := match value with Some s => PyStr s | None => PyNone end in
  let* present := env_get key in
  match present with
  | Some _ =>
      run env_set key v then
      ret (PyStr ("Overwritten as " +:+ key +:+ ":" +:+ str v))
  | None =>
      run env_set key v then
      ret (PyStr (key +:+ ":" +:+ str v))
  end.

(** [set tabwidth] *)
Definition settabwidth (width : Z) : M pyobj :=
  if (width <=? 0)%Z then
    ret (PyStr "Error, tabwidth must be greater than 0")
  else
    run env_set "tabwidth" (PyInt 4) then
    ret PyNone.

(** [get name] *)
Definition getname : M pyobj :=
  let* username := env_get "username" in
  match username with
  | None => ret (PyStr "")
  | Some PyNone => ret (PyStr "")
  | Some v => ret v
  end.

(** [get age] *)
Definition getage : M pyobj :=
  let* age := env_get "age" in
  match age with
  | None => ret (PyStr "")
  | Some PyNone => ret (PyStr "")
  | Some v => ret v
  end.

(** The body of the loop of [getitem]'s list-all branch, run over the
    elements the iteration yields. *)
Fixpoint getitem_loop (elems : list pyobj) (message : string)
  : result string :=
  match elems with
  | [] => Ok message
  | elem :: rest =>
      match unpack2 elem with
      | Raise e => Raise e
      | Ok (key, value) =>
          getitem_loop rest
            (message +:+ TAB +:+ str key +:+ ":" +:+ str value)
      end
  end.

(** [get item] *)
Definition getitem (key : option string) : M pyobj :=
  let* user_items := env_get "user-items" in
  match user_items with
  | None => ret (PyStr "")
  | Some items =>
      match key with
      | None =>
          let* elems := lift (iterate items) in
          let* message := lift (getitem_loop elems NL) in
          ret (PyStr message)
      | Some key =>
          let* stored := env_get key in
          match stored with
          | None => ret (PyStr ("Key " +:+ key +:+ " does not exist"))
          | Some v => ret v
          end
      end
  end.

(** [get tabwidth] *)
Definition gettabwidth : M pyobj :=
  let* tabwidth := env_get "tabwidth" in
  match tabwidth with
  | Some v => ret v
  | None =>
      run env_set "tabwidth" (PyInt DEFAULT_TABWIDTH) then
      ret (PyInt DEFAULT_TABWIDTH)
  end.

(** ** The two rendering callbacks *)

Definition exception_handler (exception : exn) : M unit :=
  if issubclass (exn_class exception) CLIError then
    let* current := (fun w => (Ok (invoking w), w)) in
    run match current with
        | None => print ("! An error occured: " +:+ exn_str exception)
        | Some command =>
            let* m := lift (first_match command) in
            print ("! An error occured running command " +:+ m +:+ ": "
                     +:+ exn_str exception)
        end then
    match exn_cause exception with
    | Some cause => print ("! Cause: " +:+ exn_str cause)
    | None => ret tt
    end
  else
    run print ("Unkown exception was raised: " +:+ exn_str exception) then
    print_exc.

(** ['ignore-value' in command.options and command.options['ignore-value']] *)
Definition ignore_value (command : Command) : bool :=
  match options command !! "ignore-value" with
  | Some v => truthy v
  | None => false
  end.

Definition return_value_handler (command : Command) (value : pyobj)
  : M unit :=
  if ignore_value command then ret tt
  else
    let* first := lift (first_match command) in
    let title :=
      match options command !! "title" with
      | Some t => t
      | None => PyStr first
      end in
    let delimiter :=
      match options command !! "delimiter" with
      | Some d => d
      | None => PyStr "->"
      end in
    match value with
    | PyNone => print (str title +:+ str delimiter +:+ "Done!")
    | _ => print (str title +:+ str delimiter +:+ str value)
    end.

(** ** Handlers that reach into the registry and the file system *)

Fixpoint cmd_lookup (fname : string) (cs : list Command) : option Command :=
  match cs with
  | [] => None
  | c :: rest =>
      if String.eqb (function c) fname then Some c else cmd_lookup fname rest
  end.

(** The command object [cmd] returns is shared with the registry: a write
    to its options is a write to the registered command. *)
Fixpoint cmd_update (fname : string) (f : Command -> Command)
    (cs : list Command) : list Command :=
  match cs with
  | [] => []
  | c :: rest =>
      if String.eqb (function c) fname then f c :: rest
      else c :: cmd_update fname f rest
  end.

(** [cmd(cli, f).options[key] = v] *)
Definition options_set (fname key : string) (v : pyobj) : M unit :=
  fun w =>
    (Ok tt,
     set_commands
       (cmd_update fname (fun c => with_options c (<[key := v]> (options c)))
          (commands w)) w).

(** [cmd(cli, f).options.pop(key, None)] *)
Definition options_pop (fname key : string) : M unit :=
  fun w =>
    (Ok tt,
     set_commands
       (cmd_update fname (fun c => with_options c (delete key (options c)))
          (commands w)) w).

Definition doc_text (c : Command) : string :=
  match function_doc c with
  | None => ""
  | Some d => d
  end.

(** The listing loop of [uhelp], over [enumerate(cli.commands())]. *)
Fixpoint uhelp_loop (full : bool) (last i : Z) (cs : list Command)
    (desc : string) : string :=
  match cs with
  | [] => desc
  | command :: rest =>
      let desc := desc +:+ TAB +:+ detail command in
      let desc := if full then desc +:+ " | " +:+ doc_text command else desc in
      let desc := if negb (Z.eqb i last) then desc +:+ NL else desc in
      uhelp_loop full last (i + 1) rest desc
  end.

(** [math.ceil(math.log10(n))] for a length [n]: a domain error at 0
    (worded as CPython 3.10 to 3.13 word it), and otherwise the least [k]
    with [n <= 10^k] (the floating-point logarithm is taken as exact). *)
Fixpoint ceil_log10_from (fuel : nat) (n k p : Z) : Z :=
  match fuel with
  | O => k
  | S fuel' =>
      if (n <=? p)%Z then k else ceil_log10_from fuel' n (k + 1) (10 * p)
  end.

Definition ceil_log10 (n : nat) : result Z :=
  match n with
  | O => Raise (Exn ValueError "math domain error" None)
  | S _ => Ok (ceil_log10_from n (Z.of_nat n) 0 1)
  end.

Fixpoint zeros (n : nat) : string :=
  match n with
  | O => ""
  | S n' => String "0"%char (zeros n')
  end.

(** [format(idx, f"0{width}")] for an index [idx >= 0] *)
Definition format_zero_padded (idx width : Z) : string :=
  let digits := pretty idx in
  zeros (Z.to_nat width - String.length digits) +:+ digits.

Fixpoint printfile_loop (line_no : bool) (max_digit_count : Z) (index : Z)
    (lines : list string) (out : string) : string :=
  match lines with
  | [] => out
  | line :: rest =>
      let line_number :=
        if negb line_no then ""
        else format_zero_padded index max_digit_count +:+ "|" in
      printfile_loop line_no max_digit_count (index + 1) rest
        (out +:+ line_number +:+ line)
  end.

Section Handlers.

(** What the program takes from the pycli package and from the
    operating system. *)

(** [cli.match_command(name)]: the command a name resolves to, or the
    error the shell raises for it. *)
Variable match_command : world -> string -> result Command.

(** The exception a use of [cmd(cli, f)] ends in when [f] is not a
    registered handler. *)
Variable unregistered : string -> exn.

(** [os.path.isfile], [os.path.basename], and [open(path, 'r',
    encoding=encoding)] followed by [readlines()]. *)
Variable os_path_isfile : string -> bool.
Variable os_path_basename : string -> string.
Variable open_readlines : string -> option string -> result (list string).

(** [cmd(cli, f)] *)
Definition cmd (fname : string) : M Command :=
  fun w =>
    match cmd_lookup fname (commands w) with
    | Some c => (Ok c, w)
    | None => (Raise (unregistered fname), w)
    end.

(** [help]; the handler is registered under its own name [uhelp]. *)
Definition uhelp (command_name : option string) (full : option bool)
  : M pyobj :=
  let full := match full with Some b => b | None => false end in
  run cmd "uhelp" then
  match command_name with
  | None =>
      run options_set "uhelp" "title" (PyStr "Help") then
      run options_set "uhelp" "delimiter" (PyStr NL) then
      let* cs := (fun w => (Ok (commands w), w)) in
      let last := (Z.of_nat (List.length cs) - 1)%Z in
      ret (PyStr (uhelp_loop full last 0 cs ""))
  | Some command_name =>
      let* command := (fun w => (match_command w command_name, w)) in
      run options_set "uhelp" "title" (PyStr "Help for") then
      run options_set "uhelp" "delimiter" (PyStr " ") then
      ret (PyStr (detail command
                    +:+ (if full then " | " +:+ doc_text command else "")))
  end.

(** [printfile] *)
Definition printfile (path : string) (line_no : bool)
    (encoding : option string) : M pyobj :=
  run cmd "printfile" then
  run options_pop "printfile" "title" then
  if negb (os_path_isfile path) then
    raise (Exn FileNotFoundError ("File " +:+ path +:+ " does not exist")
             None)
  else
    run options_set "printfile" "title" (PyStr (os_path_basename path)) then
    let* lines := lift (open_readlines path encoding) in
    let* max_digit_count := lift (ceil_log10 (List.length lines)) in
    ret (PyStr (printfile_loop line_no max_digit_count 0 lines "")).

End Handlers.

(** The reports of the error renderer, in the specification's words: the
    concise message for an error of the taxonomy (one headline, and the
    chained cause when there is one), and the warning with the full trace
    for anything else. *)
Definition concise_report (w : world) (exception : exn) : list event :=
  let headline :=
    match invoking w with
    | None => "! An error occured: " +:+ exn_str exception
    | Some command =>
        "! An error occured running command "
          +:+ hd "" (matches command) +:+ ": " +:+ exn_str exception
    end in
  Printed headline ::
    match exn_cause exception with
    | Some cause => [Printed ("! Cause: " +:+ exn_str cause)]
    | None => []
    end.

Definition diagnostic_report (exception : exn) : list event :=
  [Printed ("Unkown exception was raised: " +:+ exn_str exception); PrintExc].

(** [isinstance(v, int)]; [bool] is a subclass of [int]. *)
Definition isinstance_int (v : pyobj) : bool :=
  match v with
  | PyInt _ | PyBool _ => true
  | _ => false
  end.

(** Worlds, commands and stand-ins for the outside used in the examples. *)
Definition quit_command : Command :=
  mkCommand "uquit" (Some " Exit the program") ["quit"; "exit"; "q"]
    (<["ignore-value" := PyBool true]> ∅) "quit".

Definition help_command : Command :=
  mkCommand "uhelp" None ["help"] ∅ "help [command_name] [full]".

Definition printfile_command : Command :=
  mkCommand "printfile" None ["printfile"; "print"]
    (<["delimiter" := PyStr (":" +:+ NL)]> ∅) "printfile path".

Definition setname_command : Command :=
  mkCommand "setname" (Some "Set environment variable name") ["set name"] ∅
    "set name name".

Definition initial_world : world :=
  mkWorld "CLI App" initial_env_vars
    [help_command; quit_command; setname_command; printfile_command]
    None [].

(** A store whose user-items mapping has the one entry pen: blue. *)
Definition pen_world : world :=
  set_env_vars
    (<["user-items" := PyDict [(PyStr "pen", PyStr "blue")]]> initial_env_vars)
    initial_world.

Definition UnknownCommand : exn :=
  Exn (Class "CommandNotFoundError" (Some CLIError)) "no such command" None.

Definition sample_match_command (w : world) (name : string)
  : result Command :=
  match List.find (fun c => str_in (lower name) (matches c)) (commands w) with
  | Some c => Ok c
  | None => Raise UnknownCommand
  end.

Definition sample_unregistered (fname : string) : exn :=
  Exn KeyError fname None.

Definition sample_isfile (path : string) : bool :=
  str_in path ["empty.txt"; "notes.txt"].

Definition sample_basename (path : string) : string := path.

Definition sample_readlines (path : string) (encoding : option string)
  : result (list string) :=
  if String.eqb path "notes.txt" then Ok ["one" +:+ NL; "two" +:+ NL]
  else Ok [].

(** ** The remaining handlers *)

(** [cli.env_vars[key]] *)
Definition env_item (key : string) : M pyobj :=
  fun w =>
    match env_vars w !! key with
    | Some v => (Ok v, w)
    | None => (Raise (Exn KeyError (repr (PyStr key)) None), w)
    end.

Fixpoint repeat_string (s : string) (n : nat) : string :=
  match n with
  | O => ""
  | S n' => s +:+ repeat_string s n'
  end.

(** [s * n] for a str [s]: [n] copies for an int (none below 1, a bool
    counting as 0 or 1), a TypeError for anything else. *)
Definition str_times (s : string) (n : pyobj) : result string :=
  match n with
  | PyInt z => Ok (repeat_string s (Z.to_nat z))
  | PyBool b => Ok (repeat_string s (if b then 1 else 0)%nat)
  | _ =>
      Raise (Exn TypeError
               ("can't multiply sequence by non-int of type '"
                  +:+ type_name n +:+ "'") None)
  end.

(** [expanded_tab] *)
Definition expanded_tab : M pyobj :=
  let* present := env_get "tabwidth" in
  run match present with
      | None => env_set "tabwidth" (PyInt DEFAULT_TABWIDTH)
      | Some _ => ret tt
      end then
  let* tabwidth := env_item "tabwidth" in
  let* tab := lift (str_times " " tabwidth) in
  ret (PyStr tab).

(** The two loops of [echo] outside flat mode. *)
Fixpoint echo_args (i : Z) (args : list pyobj) : M unit :=
  match args with
  | [] => ret tt
  | arg :: rest =>
      run print (pretty i +:+ ":" +:+ str arg) then
      echo_args (i + 1) rest
  end.

Fixpoint echo_kwargs (kwargs : list (string * pyobj)) : M unit :=
  match kwargs with
  | [] => ret tt
  | (key, value) :: rest =>
      run print (key +:+ ":" +:+ str value) then
      echo_kwargs rest
  end.

Definition kwargs_dict (kwargs : list (string * pyobj)) : pyobj :=
  PyDict (List.map (fun kv => (PyStr (fst kv), snd kv)) kwargs).

(** [echo]; [args] is the tuple of the surplus positional arguments and
    [kwargs] the keyword arguments in the order given. *)
Definition echo (string_ : string) (second : option string) (flat : bool)
    (args : list pyobj) (kwargs : list (string * pyobj)) : M pyobj :=
  run print ("string=" +:+ repr (PyStr string_)) then
  run match second with
      | Some s => print ("second=" +:+ repr (PyStr s))
      | None => ret tt
      end then
  run (if flat then
         run (if truthy (PyTuple args)
              then print ("args=" +:+ repr (PyTuple args))
              else ret tt) then
         (if truthy (kwargs_dict kwargs)
          then print ("kwargs=" +:+ repr (kwargs_dict kwargs))
          else ret tt)
       else
         run echo_args 0 args then
         echo_kwargs kwargs) then
  ret PyNone.

(** The loop of [route] that builds the command line. *)
Fixpoint route_loop (last i : Z) (args : list string)
    (system_command : string) : string :=
  match args with
  | [] => system_command
  | arg :: rest =>
      let system_command := system_command +:+ arg in
      let system_command :=
        if negb (Z.eqb i last) then system_command +:+ " "
        else system_command in
      route_loop last (i + 1) rest system_command
  end.

Section SystemHandlers.

Variable unregistered : string -> exn.

(** [os.system(command)]: whatever the command does, and its exit
    status. *)
Variable os_system : string -> M Z.

(** [route]; the arguments are the raw tokens. *)
Definition route (args : list string) : M pyobj :=
  run cmd unregistered "route" then
  run match args with
      | first :: _ => options_set "route" "title" (PyStr first)
      | [] => options_set "route" "title" (PyStr "route")
      end then
  let last := (Z.of_nat (List.length args) - 1)%Z in
  let* status := os_system (route_loop last 0 args "") in
  ret (PyInt status).

End SystemHandlers.

(** ** Sessions of set and get commands

    The nouns registered under the verbs [set] and [get], and what a
    session that invokes a list of them leaves behind (the shell goes on
    after a handler that raised). *)

Inductive store_call : Type :=
  | SetName (name : string)
  | SetAge (age : Z)
  | SetItem (key : string) (value : option string)
  | SetTabwidth (width : Z)
  | GetName
  | GetAge
  | GetItem (key : option string)
  | GetTabwidth.

Definition invoke (c : store_call) : M pyobj :=
  match c with
  | SetName name => setname name
  | SetAge age => setage age
  | SetItem key value => setitem key value
  | SetTabwidth width => settabwidth width
  | GetName => getname
  | GetAge => getage
  | GetItem key => getitem key
  | GetTabwidth => gettabwidth
  end.

Fixpoint session (calls : list store_call) (w : world) : world :=
  match calls with
  | [] => w
  | c :: rest => session rest (snd (invoke c w))
  end.

(** A call of [set item] on the given key. *)
Definition sets_item (key : string) (c : store_call) : bool :=
  match c with
  | SetItem k _ => String.eqb k key
  | _ => false
  end.

(** One line of the listing [help] returns. *)
Definition help_line (full : bool) (c : Command) : string :=
  TAB +:+ detail c +:+ (if full then " | " +:+ doc_text c else "").

(** The object [set item] stores for its optional value. *)
Definition item_value (value : option string) : pyobj :=
  match value with
  | Some s => PyStr s
  | None => PyNone
  end.


Definition route_command : Command :=
  mkCommand "route" None ["route"] ∅ "route *args".

Definition route_world : world :=
  mkWorld "CLI App" initial_env_vars [help_command; route_command] None [].

Definition sample_os_system (command : string) : M Z :=
  fun w => (Ok (if String.eqb command "true" then 0 else 1)%Z, w).

(** * Properties *)

(** ** Concrete runs *)

Example parse_bool_message_text :
  parse_bool_message =
  "Parsing bool must be falsy=('no', 'false', 'negative', 'deny') or truthy=('yes', 'true', 'positive', 'allow')".
Proof. vm_compute. reflexivity. Qed.

Example repr_nested :
  repr (PyTuple [PyInt (-12); PyStr "a\b"; PyDict [(PyStr "k", PyNone)]; PyTuple [PyBool true]])
  = "(-12, 'a\\b', {'k': None}, (True,))".
Proof. vm_compute. reflexivity. Qed.

Example printfile_numbered :
  fst (printfile sample_unregistered sample_isfile sample_basename
         sample_readlines "notes.txt" true None initial_world)
  = Ok (PyStr ("0|one" +:+ NL +:+ "1|two" +:+ NL)).
Proof. vm_compute. reflexivity. Qed.

Example uhelp_listing :
  fst (uhelp sample_match_command sample_unregistered None None initial_world)
  = Ok (PyStr (TAB +:+ "help [command_name] [full]" +:+ NL +:+ TAB +:+ "quit"
                 +:+ NL +:+ TAB +:+ "set name name" +:+ NL +:+ TAB
                 +:+ "printfile path")).
Proof. vm_compute. reflexivity. Qed.

Example ceil_log10_values :
  List.map ceil_log10 [1; 2; 10; 11; 100; 101]%nat
  = List.map Ok [0; 1; 1; 2; 2; 3]%Z.
Proof. vm_compute. reflexivity. Qed.

(** ** parse_bool *)

Lemma str_in_In (s : string) (l : list string) :
  str_in s l = true <-> In s l.
Proof.
  unfold str_in. rewrite existsb_exists. split.
  - intros (x & Hx & Heq). apply String.eqb_eq in Heq. now subst.
  - intros Hin. exists s. split; [assumption | apply String.eqb_refl].
Qed.

Lemma str_in_not_In (s : string) (l : list string) :
  ~ In s l -> str_in s l = false.
Proof.
  intros Hn. destruct (str_in s l) eqn:E; [| reflexivity].
  apply str_in_In in E. contradiction.
Qed.

(** C3: [parse_bool] answers true on every token whose lower-cased form
    is one of yes, true, positive, allow (so on the token Allow), false on
    every token whose lower-cased form is one of no, false, negative,
    deny, and raises (a ValueError) on every other token, such as
    maybe. *)
Theorem parse_bool_recognizes (entry : string) :
  (In (lower entry) ["yes"; "true"; "positive"; "allow"] ->
     parse_bool entry = Ok true)
  /\ (In (lower entry) ["no"; "false"; "negative"; "deny"] ->
        parse_bool entry = Ok false)
  /\ (~ In (lower entry) ["yes"; "true"; "positive"; "allow"] ->
      ~ In (lower entry) ["no"; "false"; "negative"; "deny"] ->
        parse_bool entry = Raise (Exn ValueError parse_bool_message None)).
Proof.
  unfold parse_bool. repeat split.
  - intros Hin. simpl in Hin.
    repeat (destruct Hin as [<- | Hin]; [reflexivity |]). contradiction.
  - intros Hin. simpl in Hin.
    repeat (destruct Hin as [<- | Hin]; [reflexivity |]). contradiction.
  - intros Ht Hf.
    rewrite (str_in_not_In _ falsy_words Hf).
    rewrite (str_in_not_In _ truthy_words Ht). reflexivity.
Qed.

Lemma parse_bool_recognizes_witness :
  parse_bool "Allow" = Ok true
  /\ parse_bool "DENY" = Ok false
  /\ parse_bool "maybe" = Raise (Exn ValueError parse_bool_message None).
Proof.
  split; [| split].
  - apply (proj1 (parse_bool_recognizes "Allow")). vm_compute. tauto.
  - apply (proj1 (proj2 (parse_bool_recognizes "DENY"))). vm_compute. tauto.
  - apply (proj2 (proj2 (parse_bool_recognizes "maybe")));
      vm_compute; intros H; decompose [or] H; try discriminate; assumption.
Defined.

(** ** The value renderer *)

(** C1: for every command (with its first alias [alias]) and every
    returned value, when the ignore-value option is not set true (absent,
    or present with a false truth value, which is what the handler
    tests), the value renderer prints title, delimiter and Done! for the
    value None, and title, delimiter and the value otherwise; the title
    is the title option when the options map has one and the first alias
    otherwise, the delimiter is the delimiter option when the map has one
    and the separator -> otherwise. *)
Theorem return_value_handler_renders
    (command : Command) (value : pyobj) (alias : string)
    (others : list string) (w : world) :
  ignore_value command = false ->
  matches command = alias :: others ->
  return_value_handler command value w =
    (Ok tt,
     set_output
       (output w ++
          [Printed
             (default alias (str <$> options command !! "title")
                +:+ default "->" (str <$> options command !! "delimiter")
                +:+ match value with
                    | PyNone => "Done!"
                    | _ => str value
                    end)]) w).
Proof.
  intros Hig Hm. unfold return_value_handler, bind, lift, first_match.
  rewrite Hig, Hm.
  destruct (options command !! "title") as [t |];
    destruct (options command !! "delimiter") as [d |];
    destruct value; reflexivity.
Qed.

Lemma return_value_handler_renders_witness :
  return_value_handler setname_command (PyStr "x") initial_world
    = (Ok tt, set_output [Printed "set name->x"] initial_world)
  /\ return_value_handler printfile_command PyNone initial_world
    = (Ok tt,
       set_output [Printed ("printfile:" +:+ NL +:+ "Done!")] initial_world).
Proof.
  split.
  - apply (return_value_handler_renders setname_command (PyStr "x")
             "set name" [] initial_world); reflexivity.
  - apply (return_value_handler_renders printfile_command PyNone
             "printfile" ["print"] initial_world); reflexivity.
Defined.

(** C2: for every command whose options map holds ignore-value set to
    true, the value renderer writes nothing, whatever value the command
    returned, None included. *)
Theorem return_value_handler_ignores
    (command : Command) (flag value : pyobj) (w : world) :
  options command !! "ignore-value" = Some flag ->
  truthy flag = true ->
  return_value_handler command value w = (Ok tt, w).
Proof.
  intros Hlook Hflag. unfold return_value_handler, ignore_value.
  rewrite Hlook, Hflag. reflexivity.
Qed.

Lemma return_value_handler_ignores_witness :
  return_value_handler quit_command PyNone initial_world
    = (Ok tt, initial_world)
  /\ return_value_handler quit_command (PyInt 7) initial_world
    = (Ok tt, initial_world).
Proof.
  split.
  - apply (return_value_handler_ignores quit_command (PyBool true) PyNone
             initial_world); reflexivity.
  - apply (return_value_handler_ignores quit_command (PyBool true) (PyInt 7)
             initial_world); reflexivity.
Defined.

(** ** The error renderer *)

Lemma concise_not_diagnostic (w : world) (exception : exn) :
  concise_report w exception <> diagnostic_report exception.
Proof.
  unfold concise_report, diagnostic_report. intros H.
  injection H as Hhead _.
  destruct (invoking w); simpl in Hhead; discriminate Hhead.
Qed.

Lemma exception_handler_cli (exception : exn) (w : world) :
  (forall c, invoking w = Some c -> matches c <> []) ->
  issubclass (exn_class exception) CLIError = true ->
  exception_handler exception w
    = (Ok tt, set_output (output w ++ concise_report w exception) w).
Proof.
  intros Hinv Hsub. unfold exception_handler, concise_report.
  rewrite Hsub. unfold bind, lift, first_match, print, ret.
  destruct (invoking w) as [c |] eqn:Ei.
  - specialize (Hinv c eq_refl).
    destruct (matches c) as [| m ms] eqn:Em; [contradiction |].
    destruct (exn_cause exception) as [cause |]; simpl;
      unfold set_output; simpl; rewrite ?Ei; [rewrite <- app_assoc |];
      reflexivity.
  - destruct (exn_cause exception) as [cause |]; simpl;
      unfold set_output; simpl; rewrite ?Ei; [rewrite <- app_assoc |];
      reflexivity.
Qed.

Lemma exception_handler_other (exception : exn) (w : world) :
  issubclass (exn_class exception) CLIError = false ->
  exception_handler exception w
    = (Ok tt, set_output (output w ++ diagnostic_report exception) w).
Proof.
  intros Hsub. unfold exception_handler, diagnostic_report.
  rewrite Hsub. unfold bind, print, print_exc, set_output. simpl.
  rewrite <- app_assoc. reflexivity.
Qed.

(** C4: for every exception handed to it (while no command, or a command
    with at least one alias, is being invoked), the error renderer prints
    the concise message -- one headline, and the chained cause when one
    is attached -- exactly when the class of the exception derives from
    CLIError, and prints the generic warning followed by the full trace
    exactly when it does not. *)
Theorem exception_handler_distinguishes (exception : exn) (w : world) :
  (forall c, invoking w = Some c -> matches c <> []) ->
  (issubclass (exn_class exception) CLIError = true <->
     exception_handler exception w
       = (Ok tt, set_output (output w ++ concise_report w exception) w))
  /\ (issubclass (exn_class exception) CLIError = false <->
        exception_handler exception w
          = (Ok tt, set_output (output w ++ diagnostic_report exception) w)).
Proof.
  intros Hinv.
  destruct (issubclass (exn_class exception) CLIError) eqn:Hsub.
  - pose proof (exception_handler_cli exception w Hinv Hsub) as Hrun.
    split; split; intros H; try assumption; try reflexivity; try discriminate.
    rewrite Hrun in H. injection H as H. apply app_inv_head in H.
    now apply concise_not_diagnostic in H.
  - pose proof (exception_handler_other exception w Hsub) as Hrun.
    split; split; intros H; try assumption; try reflexivity; try discriminate.
    rewrite Hrun in H. injection H as H. apply app_inv_head in H.
    symmetry in H. now apply concise_not_diagnostic in H.
Qed.

Lemma exception_handler_distinguishes_witness :
  exception_handler
    (Exn (Class "CommandNotFoundError" (Some CLIError)) "no such command"
       (Some (Exn KeyError "'frob'" None))) initial_world
    = (Ok tt,
       set_output [Printed "! An error occured: no such command";
                   Printed "! Cause: 'frob'"] initial_world)
  /\ exception_handler (Exn ValueError "math domain error" None) initial_world
    = (Ok tt,
       set_output [Printed "Unkown exception was raised: math domain error";
                   PrintExc] initial_world).
Proof.
  split.
  - apply (proj1 (exception_handler_distinguishes
                    (Exn (Class "CommandNotFoundError" (Some CLIError))
                       "no such command" (Some (Exn KeyError "'frob'" None)))
                    initial_world ltac:(intros c H; discriminate H))).
    reflexivity.
  - apply (proj2 (exception_handler_distinguishes
                    (Exn ValueError "math domain error" None)
                    initial_world ltac:(intros c H; discriminate H))).
    reflexivity.
Defined.

(** ** Commands on the environment store *)

(** C6: for every width greater than 0, [settabwidth width] stores the
    hardcoded default 4 under tabwidth, whatever the width, and returns
    no value; for every width at most 0 it returns an error message and
    leaves the store, tabwidth included, as it was. *)
Theorem settabwidth_ignores_width (width : Z) (w : world) :
  (0 < width ->
     settabwidth width w
       = (Ok PyNone,
          set_env_vars (<["tabwidth" := PyInt DEFAULT_TABWIDTH]> (env_vars w))
            w)
     /\ env_vars (snd (settabwidth width w)) !! "tabwidth" = Some (PyInt 4))
  /\ (width <= 0 ->
        settabwidth width w
          = (Ok (PyStr "Error, tabwidth must be greater than 0"), w)).
Proof.
  unfold settabwidth. split; intros Hw.
  - destruct (Z.leb_spec width 0) as [Hle | Hgt]; [lia |].
    split; [reflexivity |]. simpl. apply lookup_insert_eq.
  - destruct (Z.leb_spec width 0) as [Hle | Hgt]; [reflexivity | lia].
Qed.

Lemma settabwidth_ignores_width_witness :
  env_vars (snd (settabwidth 8 initial_world)) !! "tabwidth" = Some (PyInt 4)
  /\ settabwidth (-2) initial_world
     = (Ok (PyStr "Error, tabwidth must be greater than 0"), initial_world).
Proof.
  split.
  - apply (proj1 (settabwidth_ignores_width 8 initial_world)). lia.
  - apply (proj2 (settabwidth_ignores_width (-2) initial_world)). lia.
Defined.

(** C9: [setname name] returns its argument unchanged, and in any later
    world whose username entry is the one [setname] left, [getname]
    returns that same name. *)
Theorem setname_then_getname (name : string) (w later : world) :
  env_vars later !! "username"
    = env_vars (snd (setname name w)) !! "username" ->
  fst (setname name w) = Ok (PyStr name)
  /\ getname later = (Ok (PyStr name), later).
Proof.
  intros Hsame. split.
  - unfold setname, bind, env_set, ret. simpl.
    destruct (negb (String.eqb name "")); reflexivity.
  - assert (Hset : env_vars (snd (setname name w)) !! "username"
                   = Some (PyStr name)).
    { unfold setname, bind, env_set, ret. simpl.
      destruct (negb (String.eqb name "")); simpl; apply lookup_insert_eq. }
    rewrite Hset in Hsame.
    unfold getname, bind, env_get. rewrite Hsame. reflexivity.
Qed.

Lemma setname_then_getname_witness :
  fst (setname "ada" initial_world) = Ok (PyStr "ada")
  /\ getname (snd (setage 36 (snd (setname "ada" initial_world))))
     = (Ok (PyStr "ada"), snd (setage 36 (snd (setname "ada" initial_world)))).
Proof.
  apply (setname_then_getname "ada" initial_world
           (snd (setage 36 (snd (setname "ada" initial_world))))).
  vm_compute. reflexivity.
Defined.

(** C10: when the store has no age entry, or its age entry is None,
    [getage] returns the empty string, which is not an int, the type the
    handler declares; otherwise it returns the stored age as it is. *)
Theorem getage_returns (w : world) :
  (env_vars w !! "age" = None \/ env_vars w !! "age" = Some PyNone ->
     getage w = (Ok (PyStr ""), w))
  /\ isinstance_int (PyStr "") = false
  /\ (forall age, env_vars w !! "age" = Some age -> age <> PyNone ->
        getage w = (Ok age, w)).
Proof.
  unfold getage, bind, env_get. repeat split.
  - intros [H | H]; rewrite H; reflexivity.
  - intros age H Hnn. rewrite H. destruct age; try reflexivity. congruence.
Qed.

Lemma getage_returns_witness :
  getage initial_world = (Ok (PyStr ""), initial_world)
  /\ getage (snd (setage 36 initial_world))
     = (Ok (PyInt 36), snd (setage 36 initial_world)).
Proof.
  split.
  - apply (proj1 (getage_returns initial_world)). right. vm_compute.
    reflexivity.
  - apply (proj2 (proj2 (getage_returns (snd (setage 36 initial_world))))).
    + vm_compute. reflexivity.
    + discriminate.
Defined.

(** ** getitem *)

Lemma unpack2_raises (v : pyobj) :
  two_elements v = false -> exists e, unpack2 v = Raise e.
Proof.
  unfold two_elements, unpack2. intros H.
  destruct (elements_of v) as [l |]; [| eauto].
  destruct l as [| a [| b [| c l]]]; try discriminate H; eauto.
Qed.

Lemma getitem_loop_raises (elems : list pyobj) :
  (exists elem, In elem elems /\ two_elements elem = false) ->
  forall message, exists e, getitem_loop elems message = Raise e.
Proof.
  induction elems as [| x rest IH]; intros (elem & Hin & Hbad) message.
  - destruct Hin.
  - simpl. destruct (unpack2 x) as [[key value] | e] eqn:Hx; [| eauto].
    destruct Hin as [-> | Hin].
    + apply unpack2_raises in Hbad as [e He]. congruence.
    + apply IH. eauto.
Qed.

(** C7: in the list-all branch of [getitem] (no key given) the loop runs
    over the user-items mapping itself, that is over its keys alone (the
    stored values play no part in the outcome), and unpacks each key into
    two names: for the empty mapping the branch returns a lone newline,
    and for every mapping with a key that does not decompose into exactly
    two elements the call raises. *)
Theorem getitem_list_all_iterates_keys
    (w : world) (entries : list (pyobj * pyobj)) :
  env_vars w !! "user-items" = Some (PyDict entries) ->
  (entries = [] -> getitem None w = (Ok (PyStr NL), w))
  /\ ((exists key value,
         In (key, value) entries /\ two_elements key = false) ->
      exists e, getitem None w = (Raise e, w))
  /\ (forall w' entries',
        env_vars w' !! "user-items" = Some (PyDict entries') ->
        List.map fst entries' = List.map fst entries ->
        fst (getitem None w') = fst (getitem None w)).
Proof.
  intros Hitems. unfold getitem, bind, env_get, lift, iterate, ret.
  rewrite Hitems. simpl. repeat split.
  - intros ->. reflexivity.
  - intros (key & value & Hin & Hbad).
    destruct (getitem_loop_raises (List.map fst entries)) with (message := NL)
      as [e He].
    + exists key. split; [| assumption].
      change key with (fst (key, value)). now apply in_map.
    + rewrite He. eauto.
  - intros w' entries' Hitems' Hkeys. rewrite Hitems'. simpl. rewrite Hkeys.
    destruct (getitem_loop (List.map fst entries) NL); reflexivity.
Qed.

Lemma getitem_list_all_iterates_keys_witness :
  getitem None initial_world = (Ok (PyStr NL), initial_world)
  /\ (exists e, getitem None pen_world = (Raise e, pen_world)).
Proof.
  assert (Hempty : env_vars initial_world !! "user-items" = Some (PyDict []))
    by (vm_compute; reflexivity).
  assert (Hpen : env_vars pen_world !! "user-items"
                 = Some (PyDict [(PyStr "pen", PyStr "blue")]))
    by (vm_compute; reflexivity).
  split.
  - apply (proj1 (getitem_list_all_iterates_keys initial_world [] Hempty)).
    reflexivity.
  - apply (proj1 (proj2 (getitem_list_all_iterates_keys pen_world
                           [(PyStr "pen", PyStr "blue")] Hpen))).
    exists (PyStr "pen"), (PyStr "blue").
    split; [left | vm_compute]; reflexivity.
Defined.

Example getitem_pen_raises :
  fst (getitem None pen_world)
  = Raise (Exn ValueError "too many values to unpack (expected 2)" None).
Proof. vm_compute. reflexivity. Qed.

Example getitem_two_letter_keys :
  fst (getitem None
         (set_env_vars
            (<["user-items" :=
                 PyDict [(PyStr "ab", PyStr "first");
                         (PyTuple [PyInt 1; PyStr "x"], PyStr "second")]]>
               initial_env_vars) initial_world))
  = Ok (PyStr (NL +:+ TAB +:+ "a:b" +:+ TAB +:+ "1:x")).
Proof. vm_compute. reflexivity. Qed.

(** ** Handlers that write their own options *)

Lemma cmd_lookup_update (fname : string) (f : Command -> Command)
    (cs : list Command) (c : Command) :
  (forall x, function (f x) = function x) ->
  cmd_lookup fname cs = Some c ->
  cmd_lookup fname (cmd_update fname f cs) = Some (f c).
Proof.
  intros Hf. induction cs as [| x rest IH]; simpl; [discriminate |].
  destruct (String.eqb (function x) fname) eqn:E; simpl.
  - intros [= ->]. rewrite Hf, E. reflexivity.
  - rewrite E. exact IH.
Qed.

Lemma cmd_lookup_set (fname key : string) (v : pyobj) (w : world)
    (c : Command) :
  cmd_lookup fname (commands w) = Some c ->
  cmd_lookup fname (commands (snd (options_set fname key v w)))
    = Some (with_options c (<[key := v]> (options c))).
Proof.
  intros H. unfold options_set. simpl.
  now apply (cmd_lookup_update fname
               (fun c => with_options c (<[key := v]> (options c)))).
Qed.

Lemma cmd_lookup_pop (fname key : string) (w : world) (c : Command) :
  cmd_lookup fname (commands w) = Some c ->
  cmd_lookup fname (commands (snd (options_pop fname key w)))
    = Some (with_options c (delete key (options c))).
Proof.
  intros H. unfold options_pop. simpl.
  now apply (cmd_lookup_update fname
               (fun c => with_options c (delete key (options c)))).
Qed.

Section HandlerProperties.

Variable match_command : world -> string -> result Command.
Variable unregistered : string -> exn.
Variable os_path_isfile : string -> bool.
Variable os_path_basename : string -> string.
Variable open_readlines : string -> option string -> result (list string).

(** C5: the help command writes to its own command's options before it
    returns: invoked with no command name it returns the listing and
    has set the title to Help and the delimiter to a newline; invoked
    with a command name (one the shell resolves) it returns that
    command's text and has set the title to Help for and the delimiter
    to a space. The writes land on the registered command, so the
    renderer sees them. *)
Theorem uhelp_sets_own_options
    (full : option bool) (w : world) (help_cmd : Command) :
  cmd_lookup "uhelp" (commands w) = Some help_cmd ->
  (exists desc w',
      uhelp match_command unregistered None full w = (Ok (PyStr desc), w')
      /\ exists c,
          cmd_lookup "uhelp" (commands w') = Some c
          /\ options c !! "title" = Some (PyStr "Help")
          /\ options c !! "delimiter" = Some (PyStr NL)
          /\ options c
             = <["delimiter" := PyStr NL]>
                 (<["title" := PyStr "Help"]> (options help_cmd)))
  /\ (forall name target,
        match_command w name = Ok target ->
        exists text w',
          uhelp match_command unregistered (Some name) full w
            = (Ok (PyStr text), w')
          /\ exists c,
              cmd_lookup "uhelp" (commands w') = Some c
              /\ options c !! "title" = Some (PyStr "Help for")
              /\ options c !! "delimiter" = Some (PyStr " ")
              /\ options c
                 = <["delimiter" := PyStr " "]>
                     (<["title" := PyStr "Help for"]> (options help_cmd))).
Proof.
  intros Hreg. split.
  - unfold uhelp, bind, cmd. rewrite Hreg. simpl.
    do 2 eexists. split; [reflexivity |].
    pose proof (cmd_lookup_set "uhelp" "title" (PyStr "Help") w _ Hreg)
      as H1.
    pose proof (cmd_lookup_set "uhelp" "delimiter" (PyStr NL) _ _ H1)
      as H2.
    eexists. split; [exact H2 |]. simpl.
    split; [| split; [| reflexivity]].
    + rewrite lookup_insert_ne by discriminate. apply lookup_insert_eq.
    + apply lookup_insert_eq.
  - intros name target Hmatch.
    unfold uhelp, bind, cmd. rewrite Hreg. simpl. rewrite Hmatch. simpl.
    do 2 eexists. split; [reflexivity |].
    pose proof (cmd_lookup_set "uhelp" "title" (PyStr "Help for") w _ Hreg)
      as H1.
    pose proof (cmd_lookup_set "uhelp" "delimiter" (PyStr " ") _ _ H1)
      as H2.
    eexists. split; [exact H2 |]. simpl.
    split; [| split; [| reflexivity]].
    + rewrite lookup_insert_ne by discriminate. apply lookup_insert_eq.
    + apply lookup_insert_eq.
Qed.

(** C8: [printfile] reports a failure by raising, for the expected
    conditions too: on a path that is not an existing file it raises a
    FileNotFoundError that names the path, and on an existing file
    that reads as zero lines it raises as well, the error of the
    logarithm taken of 0 in the digit count; what it returns, when it
    returns, is the text of a file with at least one line. *)
Theorem printfile_raises_on_failure
    (path : string) (line_no : bool) (encoding : option string)
    (w : world) (print_cmd : Command) :
  cmd_lookup "printfile" (commands w) = Some print_cmd ->
  (os_path_isfile path = false ->
     printfile unregistered os_path_isfile os_path_basename open_readlines
       path line_no encoding w
     = (Raise (Exn FileNotFoundError ("File " +:+ path +:+ " does not exist")
                 None),
        snd (options_pop "printfile" "title" w)))
  /\ (os_path_isfile path = true ->
      open_readlines path encoding = Ok [] ->
      fst (printfile unregistered os_path_isfile os_path_basename
             open_readlines path line_no encoding w)
      = Raise (Exn ValueError "math domain error" None))
  /\ (forall value w',
        printfile unregistered os_path_isfile os_path_basename
          open_readlines path line_no encoding w = (Ok value, w') ->
        os_path_isfile path = true
        /\ exists lines digits,
            open_readlines path encoding = Ok lines
            /\ lines <> []
            /\ ceil_log10 (List.length lines) = Ok digits
            /\ value = PyStr (printfile_loop line_no digits 0 lines "")).
Proof.
  intros Hreg. unfold printfile, bind, cmd, raise, lift, ret.
  rewrite Hreg. simpl. repeat split.
  - intros ->. reflexivity.
  - intros -> ->. reflexivity.
  - destruct (os_path_isfile path); [reflexivity |]. simpl in H.
    discriminate H.
  - destruct (os_path_isfile path); simpl in H; [| discriminate H].
    destruct (open_readlines path encoding) as [[| first rest] | e];
      simpl in H; try discriminate H.
    injection H as <- _. do 2 eexists.
    split; [reflexivity |]. split; [discriminate |].
    split; reflexivity.
Qed.

End HandlerProperties.

Lemma uhelp_sets_own_options_witness :
  (exists desc w' c,
      uhelp sample_match_command sample_unregistered None None initial_world
        = (Ok (PyStr desc), w')
      /\ cmd_lookup "uhelp" (commands w') = Some c
      /\ options c !! "title" = Some (PyStr "Help")
      /\ options c !! "delimiter" = Some (PyStr NL))
  /\ (exists text w' c,
        uhelp sample_match_command sample_unregistered (Some "Q") None
          initial_world = (Ok (PyStr text), w')
        /\ cmd_lookup "uhelp" (commands w') = Some c
        /\ options c !! "title" = Some (PyStr "Help for")
        /\ options c !! "delimiter" = Some (PyStr " ")).
Proof.
  assert (Hreg : cmd_lookup "uhelp" (commands initial_world)
                 = Some help_command) by reflexivity.
  assert (Hq : sample_match_command initial_world "Q" = Ok quit_command)
    by reflexivity.
  destruct (uhelp_sets_own_options sample_match_command sample_unregistered
              None initial_world help_command Hreg) as [Hall Hone].
  split.
  - destruct Hall as (desc & w' & Hrun & c & Hc & Ht & Hd & _).
    exists desc, w', c. auto.
  - destruct (Hone "Q" quit_command Hq)
      as (text & w' & Hrun & c & Hc & Ht & Hd & _).
    exists text, w', c. auto.
Defined.

Lemma printfile_raises_on_failure_witness :
  fst (printfile sample_unregistered sample_isfile sample_basename
         sample_readlines "missing.txt" false None initial_world)
    = Raise (Exn FileNotFoundError "File missing.txt does not exist" None)
  /\ fst (printfile sample_unregistered sample_isfile sample_basename
            sample_readlines "empty.txt" false None initial_world)
    = Raise (Exn ValueError "math domain error" None).
Proof.
  assert (Hreg : cmd_lookup "printfile" (commands initial_world)
                 = Some printfile_command) by reflexivity.
  split.
  - rewrite (proj1 (printfile_raises_on_failure sample_unregistered
                      sample_isfile sample_basename sample_readlines
                      "missing.txt" false None initial_world
                      printfile_command Hreg) eq_refl).
    reflexivity.
  - apply (proj1 (proj2 (printfile_raises_on_failure sample_unregistered
                           sample_isfile sample_basename sample_readlines
                           "empty.txt" false None initial_world
                           printfile_command Hreg))); reflexivity.
Defined.

(** The options the help command has written are what the value renderer
    shows for that invocation. *)
Example help_is_rendered_with_its_own_options :
  let '(_, w') :=
    uhelp sample_match_command sample_unregistered (Some "Q") None
      initial_world in
  match cmd_lookup "uhelp" (commands w') with
  | Some c => output (snd (return_value_handler c (PyStr "quit") w'))
  | None => []
  end = [Printed "Help for quit"].
Proof. vm_compute. reflexivity. Qed.

(** * Further properties of the handlers *)

(** ** Text *)

Lemma append_cons (a : ascii) (s t : string) :
  String a s +:+ t = String a (s +:+ t).
Proof. reflexivity. Qed.

Lemma append_assoc (s t u : string) : (s +:+ t) +:+ u = s +:+ t +:+ u.
Proof.
  induction s as [| a s IH]; [reflexivity |].
  rewrite !append_cons. now rewrite IH.
Qed.

Lemma append_nil_r (s : string) : s +:+ "" = s.
Proof.
  induction s as [| a s IH]; [reflexivity |].
  rewrite append_cons. now rewrite IH.
Qed.

Lemma length_append (s t : string) :
  String.length (s +:+ t) = (String.length s + String.length t)%nat.
Proof.
  induction s as [| a s IH]; [reflexivity |].
  rewrite append_cons. simpl. now rewrite IH.
Qed.

(** ** set and get *)

(** X1: [setage age] returns the age it was given, and in any later world
    whose age entry is the one [setage] left, [getage] returns that
    age. *)
Theorem setage_then_getage (age : Z) (w later : world) :
  env_vars later !! "age" = env_vars (snd (setage age w)) !! "age" ->
  fst (setage age w) = Ok (PyInt age)
  /\ getage later = (Ok (PyInt age), later).
Proof.
  intros Hsame. split; [reflexivity |].
  assert (Hset : env_vars (snd (setage age w)) !! "age" = Some (PyInt age))
    by apply lookup_insert_eq.
  rewrite Hset in Hsame. unfold getage, bind, env_get.
  rewrite Hsame. reflexivity.
Qed.

Lemma setage_then_getage_witness :
  fst (setage 36 initial_world) = Ok (PyInt 36)
  /\ getage (snd (setname "ada" (snd (setage 36 initial_world))))
     = (Ok (PyInt 36), snd (setname "ada" (snd (setage 36 initial_world)))).
Proof.
  apply (setage_then_getage 36 initial_world
           (snd (setname "ada" (snd (setage 36 initial_world))))).
  vm_compute. reflexivity.
Defined.

Lemma setitem_store (key : string) (value : option string) (w : world) :
  snd (setitem key value w)
  = set_env_vars (<[key := item_value value]> (env_vars w)) w.
Proof.
  unfold setitem, bind, env_get, env_set, ret, item_value.
  destruct (env_vars w !! key); reflexivity.
Qed.

(** X2: what [setitem] stores under a key, [getitem] returns for that
    key -- None included, when no value was given -- provided the store
    has a user-items entry (or the key is user-items itself); without
    that entry [getitem] answers the empty string even for a key that was
    just stored. *)
Theorem setitem_then_getitem
    (key : string) (value : option string) (w : world) :
  (key = "user-items" \/ env_vars w !! "user-items" <> None ->
     fst (getitem (Some key) (snd (setitem key value w)))
     = Ok (item_value value))
  /\ (key <> "user-items" -> env_vars w !! "user-items" = None ->
      fst (getitem (Some key) (snd (setitem key value w))) = Ok (PyStr "")).
Proof.
  rewrite setitem_store. unfold getitem, bind, env_get, ret. simpl. split.
  - intros [-> | Hitems].
    + rewrite lookup_insert_eq. simpl. rewrite lookup_insert_eq. reflexivity.
    + destruct (decide (key = "user-items")) as [-> | Hne].
      * rewrite lookup_insert_eq. simpl. rewrite lookup_insert_eq.
        reflexivity.
      * rewrite lookup_insert_ne by (intros Heq; now apply Hne).
        destruct (env_vars w !! "user-items"); [| contradiction].
        simpl. rewrite lookup_insert_eq. reflexivity.
  - intros Hne Hnone. rewrite lookup_insert_ne by exact Hne.
    rewrite Hnone. reflexivity.
Qed.

Lemma setitem_then_getitem_witness :
  fst (getitem (Some "pen") (snd (setitem "pen" (Some "blue") initial_world)))
    = Ok (PyStr "blue")
  /\ fst (getitem (Some "pen") (snd (setitem "pen" None initial_world)))
    = Ok PyNone
  /\ fst (getitem (Some "pen")
            (snd (setitem "pen" (Some "blue")
                    (set_env_vars ∅ initial_world))))
    = Ok (PyStr "").
Proof.
  split; [| split].
  - apply (proj1 (setitem_then_getitem "pen" (Some "blue") initial_world)).
    right. vm_compute. discriminate.
  - apply (proj1 (setitem_then_getitem "pen" None initial_world)).
    right. vm_compute. discriminate.
  - apply (proj2 (setitem_then_getitem "pen" (Some "blue")
                    (set_env_vars ∅ initial_world))).
    + discriminate.
    + reflexivity.
Defined.

(** X3: [setitem] answers key:value when the key is new to the store and
    Overwritten as key:value when the store already has the key --
    which it has after any earlier [setitem] of that key, and from the
    start for the entries the program itself keeps there. *)
Theorem setitem_reports_overwrite
    (key : string) (value earlier : option string) (w : world) :
  (env_vars w !! key = None ->
     fst (setitem key value w)
     = Ok (PyStr (key +:+ ":" +:+ str (item_value value))))
  /\ (env_vars w !! key <> None ->
      fst (setitem key value w)
      = Ok (PyStr ("Overwritten as " +:+ key +:+ ":"
                     +:+ str (item_value value))))
  /\ fst (setitem key value (snd (setitem key earlier w)))
     = Ok (PyStr ("Overwritten as " +:+ key +:+ ":"
                    +:+ str (item_value value))).
Proof.
  split; [| split].
  - intros H. unfold setitem, bind, env_get, env_set, ret. rewrite H.
    reflexivity.
  - intros H. unfold setitem, bind, env_get, env_set, ret.
    destruct (env_vars w !! key); [reflexivity | contradiction].
  - rewrite setitem_store. unfold setitem, bind, env_get, env_set, ret.
    simpl. rewrite lookup_insert_eq. reflexivity.
Qed.

Lemma setitem_reports_overwrite_witness :
  fst (setitem "pen" (Some "blue") initial_world) = Ok (PyStr "pen:blue")
  /\ fst (setitem "age" None initial_world)
     = Ok (PyStr "Overwritten as age:None").
Proof.
  split.
  - apply (proj1 (setitem_reports_overwrite "pen" (Some "blue") None
                    initial_world)).
    vm_compute. reflexivity.
  - apply (proj1 (proj2 (setitem_reports_overwrite "age" None None
                           initial_world))).
    vm_compute. discriminate.
Defined.

(** X4: the title [setname] leaves is the name followed by @CLI App for
    a non-empty name and CLI App for the empty one, whatever the title
    was; so the title is CLI App exactly when the name given is empty.
    Nothing of the store but the username entry changes. *)
Theorem setname_title (name : string) (w : world) :
  title (snd (setname name w))
    = (if String.eqb name "" then "CLI App" else name +:+ "@CLI App")
  /\ (title (snd (setname name w)) = "CLI App" <-> name = "")
  /\ (forall key, key <> "username" ->
        env_vars (snd (setname name w)) !! key = env_vars w !! key).
Proof.
  unfold setname, bind, env_set, ret. simpl.
  destruct (String.eqb_spec name "") as [-> | Hne]; simpl.
  - repeat split; try reflexivity.
    intros key Hkey. now apply lookup_insert_ne.
  - split; [reflexivity |]. split.
    + split; [| contradiction]. intros Heq.
      apply (f_equal String.length) in Heq. rewrite length_append in Heq.
      simpl in Heq. lia.
    + intros key Hkey. now apply lookup_insert_ne.
Qed.

(** X5: [gettabwidth] always returns a value and leaves a tabwidth entry
    equal to it: the stored one when there is one, the default 4, which it
    then stores, when there is none. Calling it again gives the same value
    and changes nothing. *)
Theorem gettabwidth_restores_default (w : world) :
  exists value w',
    gettabwidth w = (Ok value, w')
    /\ env_vars w' !! "tabwidth" = Some value
    /\ (env_vars w !! "tabwidth" = None -> value = PyInt 4)
    /\ (env_vars w !! "tabwidth" <> None -> w' = w)
    /\ gettabwidth w' = (Ok value, w').
Proof.
  unfold gettabwidth, bind, env_get, env_set, ret.
  destruct (env_vars w !! "tabwidth") as [v |] eqn:E.
  - exists v, w. rewrite E. repeat split; auto. discriminate.
  - do 2 eexists. split; [reflexivity |]. simpl.
    rewrite lookup_insert_eq. repeat split; auto. contradiction.
Qed.

Lemma gettabwidth_restores_default_witness :
  exists value w',
    gettabwidth (set_env_vars ∅ initial_world) = (Ok value, w')
    /\ value = PyInt 4.
Proof.
  destruct (gettabwidth_restores_default (set_env_vars ∅ initial_world))
    as (value & w' & Hrun & _ & Hdef & _).
  exists value, w'. split; [exact Hrun |]. apply Hdef. reflexivity.
Defined.

Lemma setname_title_witness :
  title (snd (setname "ada" initial_world)) = "ada@CLI App"
  /\ env_vars (snd (setname "ada" initial_world)) !! "age" = Some PyNone.
Proof.
  split.
  - apply (proj1 (setname_title "ada" initial_world)).
  - rewrite (proj2 (proj2 (setname_title "ada" initial_world)) "age")
      by discriminate.
    vm_compute. reflexivity.
Defined.

(** ** Sessions *)

(** What one call does to the store: nothing, or one insertion. *)
Lemma invoke_store (c : store_call) (w : world) :
  env_vars (snd (invoke c w)) = env_vars w
  \/ (exists name, c = SetName name
        /\ env_vars (snd (invoke c w))
           = <["username" := PyStr name]> (env_vars w))
  \/ (exists age, c = SetAge age
        /\ env_vars (snd (invoke c w)) = <["age" := PyInt age]> (env_vars w))
  \/ (exists key value, c = SetItem key value
        /\ env_vars (snd (invoke c w))
           = <[key := item_value value]> (env_vars w))
  \/ env_vars (snd (invoke c w)) = <["tabwidth" := PyInt 4]> (env_vars w).
Proof.
  destruct c as [name | age | key value | width | | | key |]; simpl.
  - right; left. exists name. split; [reflexivity |].
    unfold setname, bind, env_set, ret. simpl.
    destruct (negb (String.eqb name "")); reflexivity.
  - right; right; left. exists age. split; reflexivity.
  - right; right; right; left. exists key, value. split; [reflexivity |].
    rewrite setitem_store. reflexivity.
  - unfold settabwidth. destruct (width <=? 0)%Z; [left | do 4 right];
      reflexivity.
  - left. unfold getname, bind, env_get, ret.
    destruct (env_vars w !! "username") as [[] |]; reflexivity.
  - left. unfold getage, bind, env_get, ret.
    destruct (env_vars w !! "age") as [[] |]; reflexivity.
  - left. unfold getitem, bind, env_get, lift, ret.
    destruct (env_vars w !! "user-items") as [items |]; [| reflexivity].
    destruct key as [key |].
    + simpl. destruct (env_vars w !! key); reflexivity.
    + simpl. destruct (iterate items) as [elems | e]; [| reflexivity].
      destruct (getitem_loop elems NL); reflexivity.
  - unfold gettabwidth, bind, env_get, env_set, ret.
    destruct (env_vars w !! "tabwidth"); [left | do 4 right]; reflexivity.
Qed.

Lemma invoke_keeps_keys (c : store_call) (w : world) (key : string) :
  env_vars w !! key <> None -> env_vars (snd (invoke c w)) !! key <> None.
Proof.
  intros Hkey.
  destruct (invoke_store c w)
    as [-> | [(n & _ & ->) | [(a & _ & ->) | [(k & v & _ & ->) | ->]]]];
    try assumption;
    rewrite lookup_insert; case_decide; congruence.
Qed.

(** X6: no set or get command ever removes a key from the environment
    store: a key the store has before a session is there after it. From
    the store the program starts with, the entries username, age,
    user-items and tabwidth are therefore always present. *)
Theorem session_keeps_keys (calls : list store_call) :
  (forall w key,
      env_vars w !! key <> None ->
      env_vars (session calls w) !! key <> None)
  /\ (forall key,
        In key ["username"; "age"; "user-items"; "tabwidth"] ->
        env_vars (session calls initial_world) !! key <> None).
Proof.
  assert (Hgen : forall w key,
             env_vars w !! key <> None ->
             env_vars (session calls w) !! key <> None).
  { induction calls as [| c rest IH]; intros w key Hkey; [exact Hkey |].
    simpl. apply IH. now apply invoke_keeps_keys. }
  split; [exact Hgen |].
  intros key Hin. apply Hgen. simpl in Hin.
  decompose [or] Hin; subst; try contradiction; vm_compute; discriminate.
Qed.

Lemma session_keeps_keys_witness :
  env_vars
    (session [SetItem "user-items" None; SetTabwidth 0; GetItem None;
              SetName ""] initial_world) !! "user-items" <> None.
Proof.
  apply (proj2 (session_keeps_keys
                  [SetItem "user-items" None; SetTabwidth 0; GetItem None;
                   SetName ""]) "user-items").
  simpl. tauto.
Defined.

Lemma invoke_keeps_entry (c : store_call) (w : world) (key : string)
    (v : pyobj) :
  sets_item key c = false ->
  (key = "username" \/ key = "age" -> False) ->
  (key = "tabwidth" -> v = PyInt 4) ->
  env_vars w !! key = Some v ->
  env_vars (snd (invoke c w)) !! key = Some v.
Proof.
  intros Hnot Hreserved Htab Hkey.
  destruct (invoke_store c w)
    as [-> | [(n & _ & ->) | [(a & _ & ->) | [(k & x & -> & ->) | ->]]]];
    try assumption.
  - rewrite lookup_insert_ne; [assumption | intros <-; tauto].
  - rewrite lookup_insert_ne; [assumption | intros <-; tauto].
  - simpl in Hnot. apply String.eqb_neq in Hnot.
    rewrite lookup_insert_ne; assumption.
  - destruct (decide (key = "tabwidth")) as [-> | Hne].
    + rewrite lookup_insert_eq. now rewrite (Htab eq_refl).
    + rewrite lookup_insert_ne; [assumption | congruence].
Qed.

Lemma session_keeps_entry (calls : list store_call) (key : string)
    (v : pyobj) :
  existsb (sets_item key) calls = false ->
  (key = "username" \/ key = "age" -> False) ->
  (key = "tabwidth" -> v = PyInt 4) ->
  forall w,
    env_vars w !! key = Some v ->
    env_vars (session calls w) !! key = Some v.
Proof.
  intros Hnot Hreserved Htab.
  induction calls as [| c rest IH]; intros w Hkey; [exact Hkey |].
  simpl in Hnot. apply orb_false_iff in Hnot as [Hc Hrest].
  simpl. apply (IH Hrest). now apply invoke_keeps_entry.
Qed.


(** X7: the tab width cannot be changed through its own commands: from a
    store whose tabwidth is the default 4, after any session that has no
    [set item tabwidth] in it -- whatever widths [set tabwidth] was given
    -- the entry is still 4, [gettabwidth] returns 4 and [expanded_tab]
    is four spaces. *)
Theorem tabwidth_stays_default (calls : list store_call) (w : world) :
  env_vars w !! "tabwidth" = Some (PyInt 4) ->
  existsb (sets_item "tabwidth") calls = false ->
  env_vars (session calls w) !! "tabwidth" = Some (PyInt 4)
  /\ gettabwidth (session calls w) = (Ok (PyInt 4), session calls w)
  /\ expanded_tab (session calls w) = (Ok (PyStr "    "), session calls w).
Proof.
  intros Hstart Hnot.
  assert (Hend : env_vars (session calls w) !! "tabwidth" = Some (PyInt 4)).
  { apply session_keeps_entry; auto. intros [H | H]; discriminate H. }
  split; [exact Hend |]. split.
  - unfold gettabwidth, bind, env_get, ret. rewrite Hend. reflexivity.
  - unfold expanded_tab, bind, env_get, env_item, lift, ret.
    rewrite Hend. simpl. rewrite Hend. reflexivity.
Qed.

Lemma tabwidth_stays_default_witness :
  gettabwidth
    (session [SetTabwidth 8; SetItem "pen" (Some "blue"); SetTabwidth 2]
       initial_world)
  = (Ok (PyInt 4),
     session [SetTabwidth 8; SetItem "pen" (Some "blue"); SetTabwidth 2]
       initial_world).
Proof.
  apply (tabwidth_stays_default
           [SetTabwidth 8; SetItem "pen" (Some "blue"); SetTabwidth 2]
           initial_world); vm_compute; reflexivity.
Defined.

(** X8: nothing the set and get commands do ever shows up in the listing
    of [getitem]: from a store whose user-items mapping is empty, after
    any session that has no [set item user-items] in it -- whatever other
    items were set -- the list-all branch still returns a lone newline. *)
Theorem listing_stays_empty (calls : list store_call) (w : world) :
  env_vars w !! "user-items" = Some (PyDict []) ->
  existsb (sets_item "user-items") calls = false ->
  getitem None (session calls w) = (Ok (PyStr NL), session calls w).
Proof.
  intros Hstart Hnot.
  assert (Hend : env_vars (session calls w) !! "user-items"
                 = Some (PyDict [])).
  { apply session_keeps_entry; auto; intros H; try discriminate H.
    destruct H as [H | H]; discriminate H. }
  unfold getitem, bind, env_get, lift, ret. rewrite Hend. reflexivity.
Qed.

Lemma listing_stays_empty_witness :
  getitem None
    (session [SetItem "pen" (Some "blue"); SetItem "ink" (Some "black");
              GetItem (Some "pen")] initial_world)
  = (Ok (PyStr NL),
     session [SetItem "pen" (Some "blue"); SetItem "ink" (Some "black");
              GetItem (Some "pen")] initial_world).
Proof.
  apply (listing_stays_empty
           [SetItem "pen" (Some "blue"); SetItem "ink" (Some "black");
            GetItem (Some "pen")] initial_world); vm_compute; reflexivity.
Defined.

(** ** getitem and the user-items entry *)

(** X9: [set item user-items] replaces the mapping the listing runs over:
    after it, the list-all branch of [getitem] raises a TypeError when no
    value was given (None is not iterable), raises a ValueError when the
    value is a non-empty text (a single character does not unpack into
    two names), and returns a lone newline when the value is the empty
    text. *)
Theorem setitem_user_items_breaks_listing
    (value : option string) (w : world) :
  fst (getitem None (snd (setitem "user-items" value w)))
  = match value with
    | None =>
        Raise (Exn TypeError "'NoneType' object is not iterable" None)
    | Some EmptyString => Ok (PyStr NL)
    | Some (String _ _) =>
        Raise (Exn ValueError
                 "not enough values to unpack (expected 2, got 1)" None)
    end.
Proof.
  rewrite setitem_store. unfold getitem, bind, env_get, lift, ret. simpl.
  rewrite lookup_insert_eq. destruct value as [[| a s] |]; reflexivity.
Qed.

Lemma unpack2_returns (v : pyobj) :
  two_elements v = true -> exists a b, unpack2 v = Ok (a, b).
Proof.
  unfold two_elements, unpack2. intros H.
  destruct (elements_of v) as [l |]; [| discriminate H].
  destruct l as [| a [| b [| c l]]]; try discriminate H. eauto.
Qed.

Lemma getitem_loop_returns (elems : list pyobj) :
  Forall (fun elem => two_elements elem = true) elems ->
  forall message, exists text, getitem_loop elems message = Ok text.
Proof.
  induction 1 as [| x rest Hx _ IH]; intros message; simpl; [eauto |].
  destruct (unpack2_returns x Hx) as (a & b & ->). apply IH.
Qed.

(** X10: with a mapping under user-items, the list-all branch of
    [getitem] returns a text exactly when every key of the mapping
    decomposes into two elements (a two-character text, a pair); with any
    other key in the mapping it raises. *)
Theorem getitem_list_all_returns_iff
    (w : world) (entries : list (pyobj * pyobj)) :
  env_vars w !! "user-items" = Some (PyDict entries) ->
  (exists text, getitem None w = (Ok (PyStr text), w))
  <-> Forall (fun entry => two_elements (fst entry) = true) entries.
Proof.
  intros Hitems. unfold getitem, bind, env_get, lift, iterate, ret.
  rewrite Hitems. simpl. split.
  - intros (text & Hrun). apply List.Forall_forall. intros [key value] Hin.
    simpl. destruct (two_elements key) eqn:Hkey; [reflexivity |]. exfalso.
    destruct (getitem_loop_raises (List.map fst entries)) with (message := NL)
      as [e He].
    + exists key. split; [| assumption].
      change key with (fst (key, value)). now apply in_map.
    + rewrite He in Hrun. discriminate Hrun.
  - intros Hall.
    destruct (getitem_loop_returns (List.map fst entries)) with (message := NL)
      as [text Htext].
    + apply List.Forall_forall. intros key Hin. apply in_map_iff in Hin.
      destruct Hin as (entry & <- & Hin).
      rewrite List.Forall_forall in Hall. now apply Hall.
    + exists text. rewrite Htext. reflexivity.
Qed.

Lemma getitem_list_all_returns_iff_witness :
  exists text,
    getitem None
      (set_env_vars
         (<["user-items" :=
              PyDict [(PyStr "ab", PyStr "first");
                      (PyTuple [PyInt 1; PyStr "x"], PyStr "second")]]>
            initial_env_vars) initial_world)
    = (Ok (PyStr text),
       set_env_vars
         (<["user-items" :=
              PyDict [(PyStr "ab", PyStr "first");
                      (PyTuple [PyInt 1; PyStr "x"], PyStr "second")]]>
            initial_env_vars) initial_world).
Proof.
  assert (Hitems :
            env_vars
              (set_env_vars
                 (<["user-items" :=
                      PyDict [(PyStr "ab", PyStr "first");
                              (PyTuple [PyInt 1; PyStr "x"], PyStr "second")]]>
                    initial_env_vars) initial_world) !! "user-items"
            = Some (PyDict [(PyStr "ab", PyStr "first");
                            (PyTuple [PyInt 1; PyStr "x"], PyStr "second")]))
    by (vm_compute; reflexivity).
  apply (proj2 (getitem_list_all_returns_iff _ _ Hitems)).
  repeat constructor.
Defined.

(** ** expanded_tab *)



(** ** The renderers and a command without aliases *)

(** X12: both renderers read the first alias of the command before they
    print: for a command with no alias, the value renderer raises an
    IndexError and prints nothing unless ignore-value is set -- a title
    in the options does not help, the alias is read first -- and the error
    renderer does the same for an error of the taxonomy, while for any
    other exception it still prints its warning and the trace. *)
Theorem renderers_need_an_alias
    (command : Command) (value : pyobj) (exception : exn) (w : world) :
  matches command = [] ->
  (ignore_value command = false ->
     exists message,
       return_value_handler command value w
       = (Raise (Exn IndexError message None), w))
  /\ (invoking w = Some command ->
      issubclass (exn_class exception) CLIError = true ->
      exists message,
        exception_handler exception w
        = (Raise (Exn IndexError message None), w))
  /\ (invoking w = Some command ->
      issubclass (exn_class exception) CLIError = false ->
      exception_handler exception w
      = (Ok tt, set_output (output w ++ diagnostic_report exception) w)).
Proof.
  intros Hm. split; [| split].
  - intros Hig. unfold return_value_handler, bind, lift, first_match.
    rewrite Hig, Hm. eauto.
  - intros Hinv Hsub. unfold exception_handler, bind, lift, first_match.
    rewrite Hsub, Hinv, Hm. eauto.
  - intros _ Hsub. now apply exception_handler_other.
Qed.

Lemma renderers_need_an_alias_witness :
  exists message,
    return_value_handler
      (mkCommand "anonymous" None [] (<["title" := PyStr "Shown"]> ∅) "")
      (PyInt 1) initial_world
    = (Raise (Exn IndexError message None), initial_world).
Proof.
  apply (proj1 (renderers_need_an_alias
                  (mkCommand "anonymous" None []
                     (<["title" := PyStr "Shown"]> ∅) "")
                  (PyInt 1) UnknownCommand initial_world eq_refl)).
  vm_compute. reflexivity.
Defined.

(** ** help *)

Lemma join_cons2 (sep x y : string) (l : list string) :
  join sep (x :: y :: l) = x +:+ sep +:+ join sep (y :: l).
Proof. reflexivity. Qed.

Lemma uhelp_loop_cons (full : bool) (last i : Z) (c : Command)
    (rest : list Command) (desc : string) :
  uhelp_loop full last i (c :: rest) desc
  = uhelp_loop full last (i + 1) rest
      (desc +:+ help_line full c +:+ (if Z.eqb i last then "" else NL)).
Proof.
  simpl. unfold help_line. f_equal.
  destruct full, (Z.eqb i last); simpl;
    rewrite ?append_assoc, ?append_nil_r; reflexivity.
Qed.

Lemma uhelp_loop_join (full : bool) (cs : list Command) :
  forall i desc,
    uhelp_loop full (i + Z.of_nat (List.length cs) - 1) i cs desc
    = desc +:+ join NL (List.map (help_line full) cs).
Proof.
  induction cs as [| c rest IH]; intros i desc.
  - simpl. now rewrite append_nil_r.
  - rewrite uhelp_loop_cons. destruct rest as [| c' rest'].
    + replace (i + Z.of_nat (List.length [c]) - 1)%Z with i by (simpl; lia).
      rewrite Z.eqb_refl. simpl. now rewrite append_nil_r.
    + assert (Hlast : Z.eqb i (i + Z.of_nat (List.length (c :: c' :: rest')) - 1)
                      = false).
      { apply Z.eqb_neq. simpl List.length. lia. }
      rewrite Hlast.
      replace (i + Z.of_nat (List.length (c :: c' :: rest')) - 1)%Z
        with (i + 1 + Z.of_nat (List.length (c' :: rest')) - 1)%Z
        by (simpl List.length; lia).
      rewrite IH. simpl List.map. rewrite join_cons2.
      rewrite !append_assoc. reflexivity.
Qed.

Lemma uhelp_loop_join0 (full : bool) (cs : list Command) :
  uhelp_loop full (Z.of_nat (List.length cs) - 1) 0 cs ""
  = join NL (List.map (help_line full) cs).
Proof.
  pose proof (uhelp_loop_join full cs 0 "") as H.
  rewrite Z.add_0_l in H. exact H.
Qed.

Lemma map_cmd_update {A} (f : Command -> A) (fname : string)
    (g : Command -> Command) (cs : list Command) :
  (forall c, f (g c) = f c) ->
  List.map f (cmd_update fname g cs) = List.map f cs.
Proof.
  intros Hf. induction cs as [| c rest IH]; [reflexivity |]. simpl.
  destruct (String.eqb (function c) fname); simpl.
  - now rewrite Hf.
  - now rewrite IH.
Qed.

Lemma length_cmd_update (fname : string) (g : Command -> Command)
    (cs : list Command) :
  List.length (cmd_update fname g cs) = List.length cs.
Proof.
  induction cs as [| c rest IH]; [reflexivity |]. simpl.
  destruct (String.eqb (function c) fname); simpl; [reflexivity |].
  now rewrite IH.
Qed.

Lemma cmd_lookup_update_other (fname other : string)
    (g : Command -> Command) (cs : list Command) :
  (forall c, function (g c) = function c) ->
  other <> fname ->
  cmd_lookup other (cmd_update fname g cs) = cmd_lookup other cs.
Proof.
  intros Hg Hne. induction cs as [| c rest IH]; [reflexivity |]. simpl.
  destruct (String.eqb (function c) fname) eqn:Ef; simpl.
  - rewrite Hg. apply String.eqb_eq in Ef.
    destruct (String.eqb_spec (function c) other) as [Heq | _];
      [congruence | reflexivity].
  - now rewrite IH.
Qed.

Section MoreHandlerProperties.

Variable match_command : world -> string -> result Command.
Variable unregistered : string -> exn.
Variable os_path_isfile : string -> bool.
Variable os_path_basename : string -> string.
Variable open_readlines : string -> option string -> result (list string).
Variable os_system : string -> M Z.

(** X13: invoked with no command name, [help] returns one line per
    registered command, in registration order, the lines separated by
    newlines with none after the last: a tab and the command's detail,
    followed in full mode by a bar and the handler's docstring (nothing
    after the bar when it has none). *)
Theorem uhelp_lists_every_command
    (full : option bool) (w : world) (help_cmd : Command) :
  cmd_lookup "uhelp" (commands w) = Some help_cmd ->
  fst (uhelp match_command unregistered None full w)
  = Ok (PyStr (join NL (List.map (help_line (default false full))
                          (commands w)))).
Proof.
  intros Hreg. unfold uhelp, bind, cmd, options_set, ret. rewrite Hreg.
  simpl. rewrite uhelp_loop_join0.
  rewrite !(map_cmd_update (help_line _)) by reflexivity.
  destruct full; reflexivity.
Qed.

(** X14: invoked with a command name the shell does not resolve, [help]
    raises the shell's error for it and has changed nothing: its title
    and delimiter options are the ones the last successful call left. *)
Theorem uhelp_unknown_name
    (name : string) (full : option bool) (w : world) (help_cmd : Command)
    (e : exn) :
  cmd_lookup "uhelp" (commands w) = Some help_cmd ->
  match_command w name = Raise e ->
  uhelp match_command unregistered (Some name) full w = (Raise e, w).
Proof.
  intros Hreg Hmatch. unfold uhelp, bind, cmd. rewrite Hreg. simpl.
  rewrite Hmatch. reflexivity.
Qed.

(** X15: [help] and [printfile] write to the options of their own
    command only: whatever their arguments, and whether they return or
    raise, every other registered command is afterwards what it was, and
    so are the environment store and what has been printed. *)
Theorem handlers_write_own_options_only (other : string) (w : world) :
  (forall name full,
      other <> "uhelp" ->
      cmd_lookup other
        (commands (snd (uhelp match_command unregistered name full w)))
      = cmd_lookup other (commands w)
      /\ env_vars (snd (uhelp match_command unregistered name full w))
         = env_vars w
      /\ output (snd (uhelp match_command unregistered name full w))
         = output w)
  /\ (forall path line_no encoding,
        other <> "printfile" ->
        cmd_lookup other
          (commands
             (snd (printfile unregistered os_path_isfile os_path_basename
                     open_readlines path line_no encoding w)))
        = cmd_lookup other (commands w)
        /\ env_vars
             (snd (printfile unregistered os_path_isfile os_path_basename
                     open_readlines path line_no encoding w))
           = env_vars w
        /\ output
             (snd (printfile unregistered os_path_isfile os_path_basename
                     open_readlines path line_no encoding w))
           = output w).
Proof.
  split.
  - intros name full Hne. unfold uhelp, bind, cmd, options_set, ret.
    destruct (cmd_lookup "uhelp" (commands w)); [| auto].
    destruct name as [name |]; simpl.
    + destruct (match_command w name); simpl; [| auto].
      rewrite !cmd_lookup_update_other by (reflexivity || assumption). auto.
    + rewrite !cmd_lookup_update_other by (reflexivity || assumption). auto.
  - intros path line_no encoding Hne.
    unfold printfile, bind, cmd, options_set, options_pop, raise, lift, ret.
    destruct (cmd_lookup "printfile" (commands w)); [| auto]. simpl.
    destruct (os_path_isfile path); simpl.
    + destruct (open_readlines path encoding) as [lines | e]; simpl.
      * destruct (ceil_log10 (List.length lines)); simpl;
          rewrite !cmd_lookup_update_other by (reflexivity || assumption);
          auto.
      * rewrite !cmd_lookup_update_other by (reflexivity || assumption). auto.
    + rewrite !cmd_lookup_update_other by (reflexivity || assumption). auto.
Qed.

(** ** printfile *)

Lemma concat_cons (x : string) (l : list string) :
  String.concat "" (x :: l) = x +:+ String.concat "" l.
Proof. destruct l; [now rewrite append_nil_r | reflexivity]. Qed.

Lemma printfile_loop_plain (digits : Z) (lines : list string) :
  forall index out,
    printfile_loop false digits index lines out
    = out +:+ String.concat "" lines.
Proof.
  induction lines as [| line rest IH]; intros index out.
  - simpl. now rewrite append_nil_r.
  - rewrite concat_cons. simpl printfile_loop. rewrite IH.
    now rewrite append_assoc.
Qed.

(** X16: without line numbers, [printfile] returns the text of the file
    unchanged -- its lines put back together -- for every existing file
    that has at least one line. *)
Theorem printfile_plain_text
    (path : string) (encoding : option string) (w : world)
    (print_cmd : Command) (first : string) (rest : list string) :
  cmd_lookup "printfile" (commands w) = Some print_cmd ->
  os_path_isfile path = true ->
  open_readlines path encoding = Ok (first :: rest) ->
  fst (printfile unregistered os_path_isfile os_path_basename open_readlines
         path false encoding w)
  = Ok (PyStr (String.concat "" (first :: rest))).
Proof.
  intros Hreg Hfile Hread. unfold printfile, bind, cmd, raise, lift, ret.
  rewrite Hreg. simpl. rewrite Hfile. simpl. rewrite Hread.
  cbn -[printfile_loop String.concat].
  rewrite printfile_loop_plain. reflexivity.
Qed.

(** X17: the title [printfile] leaves in its options is that of the
    current call: for a path that is not a file the title is removed (the
    renderer falls back to the alias), and for a file it is the base name
    of the path, also when the call then raises. *)
Theorem printfile_title
    (path : string) (line_no : bool) (encoding : option string) (w : world)
    (print_cmd : Command) :
  cmd_lookup "printfile" (commands w) = Some print_cmd ->
  exists c,
    cmd_lookup "printfile"
      (commands
         (snd (printfile unregistered os_path_isfile os_path_basename
                 open_readlines path line_no encoding w)))
    = Some c
    /\ options c !! "title"
       = (if os_path_isfile path then Some (PyStr (os_path_basename path))
          else None)
    /\ (forall key, key <> "title" ->
          options c !! key = options print_cmd !! key).
Proof.
  intros Hreg.
  pose proof (cmd_lookup_pop "printfile" "title" w _ Hreg) as Hpop.
  pose proof (cmd_lookup_set "printfile" "title"
                (PyStr (os_path_basename path)) _ _ Hpop) as Hset.
  unfold printfile, bind, cmd, raise, lift, ret. rewrite Hreg. simpl.
  destruct (os_path_isfile path); simpl.
  - eexists. split.
    + destruct (open_readlines path encoding) as [lines | e]; simpl;
        [destruct (ceil_log10 (List.length lines)); simpl |]; exact Hset.
    + simpl. split; [apply lookup_insert_eq |].
      intros key Hkey. rewrite lookup_insert_ne by congruence.
      apply lookup_delete_ne. congruence.
  - eexists. split; [exact Hpop |]. simpl. split; [apply lookup_delete_eq |].
    intros key Hkey. apply lookup_delete_ne. congruence.
Qed.

End MoreHandlerProperties.

(** ** The line numbers of printfile *)








(** ** route *)

Lemma route_loop_cons (last i : Z) (arg : string) (rest : list string)
    (system_command : string) :
  route_loop last i (arg :: rest) system_command
  = route_loop last (i + 1) rest
      (system_command +:+ arg +:+ (if Z.eqb i last then "" else " ")).
Proof.
  simpl. f_equal.
  destruct (Z.eqb i last); simpl; rewrite ?append_assoc, ?append_nil_r;
    reflexivity.
Qed.

Lemma route_loop_join (args : list string) :
  forall i system_command,
    route_loop (i + Z.of_nat (List.length args) - 1) i args system_command
    = system_command +:+ join " " args.
Proof.
  induction args as [| arg rest IH]; intros i system_command.
  - simpl. now rewrite append_nil_r.
  - rewrite route_loop_cons. destruct rest as [| arg' rest'].
    + replace (i + Z.of_nat (List.length [arg]) - 1)%Z with i
        by (simpl; lia).
      rewrite Z.eqb_refl. simpl. now rewrite append_nil_r.
    + assert (Hlast :
                Z.eqb i (i + Z.of_nat (List.length (arg :: arg' :: rest')) - 1)
                = false).
      { apply Z.eqb_neq. simpl List.length. lia. }
      rewrite Hlast.
      replace (i + Z.of_nat (List.length (arg :: arg' :: rest')) - 1)%Z
        with (i + 1 + Z.of_nat (List.length (arg' :: rest')) - 1)%Z
        by (simpl List.length; lia).
      rewrite IH. rewrite join_cons2. rewrite !append_assoc. reflexivity.
Qed.

Section RouteProperties.

Variable unregistered : string -> exn.
Variable os_system : string -> M Z.

(** X19: [route] hands the operating system its arguments joined by
    single spaces (the empty command line when there are none), after it
    has set its title to the first argument, or to route when there is
    none; it returns the exit status, or raises what the call raises. *)
Theorem route_joins_arguments
    (args : list string) (w : world) (route_cmd : Command) :
  cmd_lookup "route" (commands w) = Some route_cmd ->
  route unregistered os_system args w
  = match
      os_system (join " " args)
        (snd (options_set "route" "title" (PyStr (hd "route" args)) w))
    with
    | (Ok status, w') => (Ok (PyInt status), w')
    | (Raise e, w') => (Raise e, w')
    end.
Proof.
  intros Hreg. unfold route, bind, cmd, ret. rewrite Hreg.
  pose proof (route_loop_join args 0 "") as Hjoin.
  rewrite Z.add_0_l in Hjoin.
  change ("" +:+ join " " args) with (join " " args) in Hjoin.
  cbn zeta. rewrite Hjoin. destruct args as [| first rest]; reflexivity.
Qed.

End RouteProperties.

Lemma route_joins_arguments_witness :
  fst (route sample_unregistered sample_os_system ["ls"; "-l"; "src"]
         route_world) = Ok (PyInt 1)
  /\ (options
        <$> cmd_lookup "route"
              (commands
                 (snd (route sample_unregistered sample_os_system
                         ["ls"; "-l"; "src"] route_world))))
     = Some (<["title" := PyStr "ls"]> ∅).
Proof.
  assert (Hreg : cmd_lookup "route" (commands route_world)
                 = Some route_command) by reflexivity.
  rewrite (route_joins_arguments sample_unregistered sample_os_system
             ["ls"; "-l"; "src"] route_world route_command Hreg).
  split; reflexivity.
Defined.

(** ** echo *)









Example echo_flat :
  output (snd (echo "hi" None true [PyStr "a"; PyStr "b"]
                 [("k", PyStr "v")] initial_world))
  = [Printed "string='hi'"; Printed "args=('a', 'b')";
     Printed "kwargs={'k': 'v'}"].
Proof. vm_compute. reflexivity. Qed.

Example echo_lines :
  output (snd (echo "hi" (Some "there") false [PyStr "a"; PyStr "b"]
                 [("k", PyStr "v")] initial_world))
  = [Printed "string='hi'"; Printed "second='there'"; Printed "0:a";
     Printed "1:b"; Printed "k:v"].
Proof. vm_compute. reflexivity. Qed.

(** ** parse_bool and letter case *)

Lemma lower_char_idempotent (a : ascii) :
  lower_char (lower_char a) = lower_char a.
Proof. destruct a as [[] [] [] [] [] [] [] []]; vm_compute; reflexivity. Qed.

Lemma lower_idempotent (s : string) : lower (lower s) = lower s.
Proof.
  induction s as [| a s IH]; [reflexivity |].
  unfold lower in *. simpl. now rewrite lower_char_idempotent, IH.
Qed.

(** X21: [parse_bool] looks at the lower-cased token only: putting a
    token into lower case before it is parsed changes nothing, and two
    tokens with the same lower-cased form get the same answer or the same
    error. *)
Theorem parse_bool_ignores_case (entry other : string) :
  parse_bool (lower entry) = parse_bool entry
  /\ (lower other = lower entry -> parse_bool other = parse_bool entry).
Proof.
  unfold parse_bool. split.
  - now rewrite lower_idempotent.
  - intros ->. reflexivity.
Qed.

Lemma parse_bool_ignores_case_witness :
  parse_bool "yEs" = parse_bool "Yes".
Proof.
  apply (proj2 (parse_bool_ignores_case "Yes" "yEs")). reflexivity.
Defined.

(** ** Runs of the help and file handlers *)

Lemma uhelp_lists_every_command_witness :
  fst (uhelp sample_match_command sample_unregistered None (Some true)
         initial_world)
  = Ok (PyStr (join NL (List.map (help_line true) (commands initial_world)))).
Proof.
  apply (uhelp_lists_every_command sample_match_command sample_unregistered
           (Some true) initial_world help_command).
  reflexivity.
Defined.

Lemma uhelp_unknown_name_witness :
  uhelp sample_match_command sample_unregistered (Some "frob") None
    initial_world
  = (Raise UnknownCommand, initial_world).
Proof.
  apply (uhelp_unknown_name sample_match_command sample_unregistered "frob"
           None initial_world help_command UnknownCommand); reflexivity.
Defined.

Lemma handlers_write_own_options_only_witness :
  cmd_lookup "uquit"
    (commands
       (snd (uhelp sample_match_command sample_unregistered (Some "q") None
               initial_world)))
  = Some quit_command
  /\ cmd_lookup "uhelp"
       (commands
          (snd (printfile sample_unregistered sample_isfile sample_basename
                  sample_readlines "notes.txt" true None initial_world)))
     = Some help_command.
Proof.
  split.
  - rewrite (proj1 (proj1 (handlers_write_own_options_only
                             sample_match_command sample_unregistered
                             sample_isfile sample_basename sample_readlines
                             "uquit" initial_world) (Some "q") None
                      ltac:(discriminate))).
    reflexivity.
  - rewrite (proj1 (proj2 (handlers_write_own_options_only
                             sample_match_command sample_unregistered
                             sample_isfile sample_basename sample_readlines
                             "uhelp" initial_world) "notes.txt" true None
                      ltac:(discriminate))).
    reflexivity.
Defined.

Lemma printfile_plain_text_witness :
  fst (printfile sample_unregistered sample_isfile sample_basename
         sample_readlines "notes.txt" false None initial_world)
  = Ok (PyStr ("one" +:+ NL +:+ "two" +:+ NL)).
Proof.
  rewrite (printfile_plain_text sample_unregistered sample_isfile
             sample_basename sample_readlines "notes.txt" None initial_world
             printfile_command ("one" +:+ NL) ["two" +:+ NL]);
    reflexivity.
Defined.

Lemma printfile_title_witness :
  exists c,
    cmd_lookup "printfile"
      (commands
         (snd (printfile sample_unregistered sample_isfile sample_basename
                 sample_readlines "empty.txt" false None initial_world)))
    = Some c
    /\ options c !! "title" = Some (PyStr "empty.txt")
    /\ options c !! "delimiter" = Some (PyStr (":" +:+ NL)).
Proof.
  assert (Hreg : cmd_lookup "printfile" (commands initial_world)
                 = Some printfile_command) by reflexivity.
  destruct (printfile_title sample_unregistered sample_isfile sample_basename
              sample_readlines "empty.txt" false None initial_world
              printfile_command Hreg) as (c & Hc & Htitle & Hrest).
  exists c. split; [exact Hc |]. split; [exact Htitle |].
  rewrite (Hrest "delimiter") by discriminate. reflexivity.
Defined.
